(** * Shallow embedding of fscancer's sample filter and mutation merger

    Sources: [src/src/sample_filter.py] and [src/src/combine_mutations.py].

    Python [str] values are modelled as [String.string] over ASCII.  A file
    opened in text mode is modelled by the list of lines Python's file
    iterator yields (each line keeps its trailing newline).  Exceptions
    are the constructor [Err] of the [result] type; the only exception the
    modelled code can raise is the [OSError] of [open].  Python [set]s of
    strings are [gset string]; [dict]s are [gmap string _]. *)

From Stdlib Require Import Ascii String.
From stdpp Require Import base list gmap sets strings sorting.

Open Scope string_scope.
Open Scope nat_scope.

(* ------------------------------------------------------------------ *)
(** ** Results and exceptions *)

Inductive exn :=
| OSError (path : string).

Inductive result (A : Type) :=
| Ok (a : A)
| Err (e : exn).
Arguments Ok {A} a.
Arguments Err {A} e.

Definition rbind {A B} (m : result A) (k : A -> result B) : result B :=
  match m with
  | Ok a => k a
  | Err e => Err e
  end.

Notation "'let!' x := m 'in' k" := (rbind m (fun x => k))
  (at level 200, x name, m at level 100, k at level 200).

(* ------------------------------------------------------------------ *)
(** ** Python string primitives on ASCII *)

Definition tab : ascii := "009"%char.
Definition comma : ascii := ","%char.
Definition nl : ascii := "010"%char.

(** [str.isspace] restricted to ASCII: tab, LF, VT, FF, CR, the four
    separators 0x1c-0x1f and the space. *)
Definition py_isspace (c : ascii) : bool :=
  let n := nat_of_ascii c in
  ((9 <=? n) && (n <=? 13)) || ((28 <=? n) && (n <=? 32)).

(** [str.lower] on ASCII. *)
Definition lower_char (c : ascii) : ascii :=
  let n := nat_of_ascii c in
  if (65 <=? n) && (n <=? 90) then ascii_of_nat (n + 32) else c.

Fixpoint py_lower (s : string) : string :=
  match s with
  | EmptyString => EmptyString
  | String c s' => String (lower_char c) (py_lower s')
  end.

Fixpoint py_lstrip (s : string) : string :=
  match s with
  | EmptyString => EmptyString
  | String c s' => if py_isspace c then py_lstrip s' else s
  end.

Fixpoint py_rstrip (s : string) : string :=
  match s with
  | EmptyString => EmptyString
  | String c s' =>
      let r := py_rstrip s' in
      match r with
      | EmptyString => if py_isspace c then EmptyString else String c EmptyString
      | _ => String c r
      end
  end.

(** [s.strip()] *)
Definition py_strip (s : string) : string := py_rstrip (py_lstrip s).

(** [s.startswith('#')] *)
Definition starts_with_hash (s : string) : bool :=
  match s with
  | String c _ => (c =? "#")%char
  | EmptyString => false
  end.

(** [s.count(c)] for a one-character [c]. *)
Fixpoint py_count (c : ascii) (s : string) : nat :=
  match s with
  | EmptyString => 0
  | String x s' => (if (x =? c)%char then 1 else 0) + py_count c s'
  end.

(** [s.split(d)] for a one-character separator [d]: every occurrence
    splits, empty fields are kept, and [''.split(d) == ['']]. *)
Fixpoint py_split (d : ascii) (s : string) : list string :=
  match s with
  | EmptyString => [EmptyString]
  | String c s' =>
      let r := py_split d s' in
      if (c =? d)%char then EmptyString :: r
      else match r with
           | [] => [String c EmptyString]
           | x :: xs => String c x :: xs
           end
  end.

(** [needle in hay] *)
Fixpoint py_contains (needle hay : string) : bool :=
  String.prefix needle hay ||
  match hay with
  | EmptyString => false
  | String _ h' => py_contains needle h'
  end.

(** [bool(s)] for a string: non-empty. *)
Definition nonempty (s : string) : bool :=
  match s with EmptyString => false | _ => true end.

(* ------------------------------------------------------------------ *)
(** ** The regular-expression fragment used by the pattern lists

    Every pattern of [MODEL_TYPE_PATTERNS] and [MODEL_STUDY_PATTERNS] is a
    sequence of literal characters, optional one-character classes
    ([[- _]?]) and word boundaries ([\b]).  [re.search] is the existence
    of a match start; [re.IGNORECASE] compares characters after
    lowering them. *)

Inductive ratom :=
| RChr (c : ascii)
| ROpt (cls : list ascii)
| RWb.

Definition is_word_char (c : ascii) : bool :=
  let n := nat_of_ascii c in
  ((48 <=? n) && (n <=? 57)) || ((65 <=? n) && (n <=? 90)) ||
  ((97 <=? n) && (n <=? 122)) || (n =? 95).

Definition word_before (prev : option ascii) : bool :=
  match prev with Some c => is_word_char c | None => false end.

Definition word_after (s : string) : bool :=
  match s with String c _ => is_word_char c | EmptyString => false end.

Definition at_boundary (prev : option ascii) (s : string) : bool :=
  xorb (word_before prev) (word_after s).

Definition chr_eq_ic (x c : ascii) : bool := (lower_char x =? lower_char c)%char.

(** [match_at prev s p]: the pattern [p] matches a prefix of [s], the
    character before [s] being [prev]. *)
Fixpoint match_at (prev : option ascii) (s : string) (p : list ratom) : bool :=
  match p with
  | [] => true
  | RChr c :: p' =>
      match s with
      | String x s' => chr_eq_ic x c && match_at (Some x) s' p'
      | EmptyString => false
      end
  | ROpt cls :: p' =>
      match s with
      | String x s' => existsb (chr_eq_ic x) cls && match_at (Some x) s' p'
      | EmptyString => false
      end || match_at prev s p'
  | RWb :: p' => at_boundary prev s && match_at prev s p'
  end.

Fixpoint search_from (prev : option ascii) (s : string) (p : list ratom) : bool :=
  match_at prev s p ||
  match s with
  | EmptyString => false
  | String x s' => search_from (Some x) s' p
  end.

(** [re.search(p, s, re.IGNORECASE) is not None] *)
Definition re_search (p : list ratom) (s : string) : bool := search_from None s p.

Fixpoint lit (s : string) : list ratom :=
  match s with
  | EmptyString => []
  | String c s' => RChr c :: lit s'
  end.

(** [r'\bword\b'] *)
Definition bounded (w : string) : list ratom := (RWb :: lit w ++ [RWb])%list.

(* ------------------------------------------------------------------ *)
(** ** sample_filter.py: constants *)

Definition SAMPLE_ID_COLUMNS : list string :=
  ["sample_id"; "sample"; "tumor_sample_barcode"; "sample_barcode";
   "samplebarcode"; "sampleid"; "tumor_sample_id"].

Definition SAMPLE_TYPE_COLUMNS : list string :=
  ["sample_type"; "sampletype"; "sample_type_detail"; "model"; "is_model";
   "sample_class"; "sampleclass"].

Definition hyphen_space : list ascii := ["-"%char; " "%char].

(** [MODEL_TYPE_PATTERNS] *)
Definition MODEL_TYPE_PATTERNS : list (list ratom) :=
  [ bounded "pdx";
    (lit "patient" ++ [ROpt hyphen_space] ++ lit "derived" ++ [ROpt hyphen_space]
      ++ lit "xenograft")%list;
    bounded "xenograft";
    (lit "cell" ++ [ROpt ["-"%char; " "%char; "_"%char]] ++ lit "line")%list;
    bounded "cellline";
    (lit "in" ++ [ROpt hyphen_space] ++ lit "vitro")%list;
    bounded "model";
    bounded "ccle" ].

(* ------------------------------------------------------------------ *)
(** ** [is_model_sample]

    The argument is [None] for Python's [None]; [not sample_type_value]
    holds for [None] and for [''].  The loop returns on the first pattern
    that matches. *)

Definition is_model_sample (sample_type_value : option string) : bool :=
  match sample_type_value with
  | None => false
  | Some v =>
      if negb (nonempty v) then false
      else
        let value_lower := py_strip (py_lower v) in
        existsb (fun pattern => re_search pattern value_lower) MODEL_TYPE_PATTERNS
  end.

(* ------------------------------------------------------------------ *)
(** ** The file system

    [read_lines fs p] is what [open(p, 'r', encoding='utf-8',
    errors='replace')] followed by iteration yields: [None] when [open]
    raises [OSError] (missing file, dangling link, no permission), else
    the lines of the file, each with its newline. *)

Record fsys := { read_lines : string -> option (list string) }.

(** Advance the iterator past the lines that start with ['#']; the first
    other line and the rest of the iterator, if any. *)
Fixpoint next_noncomment (lines : list string) : option (string * list string) :=
  match lines with
  | [] => None
  | l :: r => if starts_with_hash l then next_noncomment r else Some (l, r)
  end.

(** Body of [_detect_delimiter] once the file is open. *)
Definition detect_delimiter_lines (lines : list string) : ascii :=
  let first_line := match next_noncomment lines with
                    | Some (l, _) => l
                    | None => EmptyString
                    end in
  if negb (nonempty first_line) then tab
  else
    let tab_count := py_count tab first_line in
    let comma_count := py_count comma first_line in
    if comma_count <=? tab_count then tab else comma.

(** [_detect_delimiter(file_path)] *)
Definition _detect_delimiter (fs : fsys) (file_path : string) : result ascii :=
  match read_lines fs file_path with
  | None => Err (OSError file_path)
  | Some lines => Ok (detect_delimiter_lines lines)
  end.

(** [for i, header in enumerate(headers_lower): if header == x: return i] *)
Fixpoint index_from (i : nat) (x : string) (hs : list string) : option nat :=
  match hs with
  | [] => None
  | h :: hs' => if String.eqb h x then Some i else index_from (S i) x hs'
  end.

(** [_find_column_index(headers, column_patterns)] *)
Definition _find_column_index (headers column_patterns : list string) : option nat :=
  let headers_lower := map (fun h => py_strip (py_lower h)) headers in
  (fix go (ps : list string) : option nat :=
     match ps with
     | [] => None
     | pattern :: ps' =>
         match index_from 0 (py_lower pattern) headers_lower with
         | Some i => Some i
         | None => go ps'
         end
     end) column_patterns.

(** [get_sample_id_column_index(headers)] *)
Definition get_sample_id_column_index (headers : list string) : option nat :=
  _find_column_index headers SAMPLE_ID_COLUMNS.

(** [line.startswith('#') or not line.strip()]: lines the data loops skip. *)
Definition skipped_line (line : string) : bool :=
  starts_with_hash line || negb (nonempty (py_strip line)).

(** One iteration of the data loop of [_parse_metadata_file]. *)
Definition metadata_row (delimiter : ascii) (sample_id_idx sample_type_idx : nat)
    (sample_is_model : gmap string bool) (line : string) : gmap string bool :=
  if skipped_line line then sample_is_model
  else
    let fields := py_split delimiter (py_strip line) in
    if length fields <=? Nat.max sample_id_idx sample_type_idx then sample_is_model
    else
      match fields !! sample_id_idx, fields !! sample_type_idx with
      | Some f_id, Some f_type =>
          let sample_id := py_strip f_id in
          let sample_type := py_strip f_type in
          if nonempty sample_id
          then <[sample_id := is_model_sample (Some sample_type)]> sample_is_model
          else sample_is_model
      | _, _ => sample_is_model
      end.

(** [_parse_metadata_file(file_path)]: detects the delimiter (first
    [open]) and then reads the file (second [open]). *)
Definition _parse_metadata_file (fs : fsys) (file_path : string)
    : result (gmap string bool) :=
  let! delimiter := _detect_delimiter fs file_path in
  match read_lines fs file_path with
  | None => Err (OSError file_path)
  | Some lines =>
      Ok match next_noncomment lines with
         | None => ∅
         | Some (l, rest) =>
             let header_line := py_strip l in
             if negb (nonempty header_line) then ∅
             else
               let headers := py_split delimiter header_line in
               match _find_column_index headers SAMPLE_ID_COLUMNS with
               | None => ∅
               | Some sample_id_idx =>
                   match _find_column_index headers SAMPLE_TYPE_COLUMNS with
                   | None => ∅
                   | Some sample_type_idx =>
                       fold_left (metadata_row delimiter sample_id_idx sample_type_idx)
                         rest ∅
                   end
               end
         end
  end.

(** The merge loop of [load_sample_metadata] (lines 186 and 201-210) over
    the list [metadata_files] that lines 187-199 build from the file
    system: [sample_is_model.update(file_mapping)] inside
    [try ... except Exception: continue]. *)
Definition load_sample_metadata_files (fs : fsys) (metadata_files : list string)
    : gmap string bool :=
  fold_left
    (fun sample_is_model metadata_file =>
       match _parse_metadata_file fs metadata_file with
       | Ok file_mapping => file_mapping ∪ sample_is_model
       | Err _ => sample_is_model
       end)
    metadata_files ∅.

(** One iteration of the loop of [is_file_entirely_model]. *)
Definition entirely_row (delimiter : ascii) (sample_id_idx : nat)
    (samples_in_file : gset string) (line : string) : gset string :=
  if skipped_line line then samples_in_file
  else
    let fields := py_split delimiter (py_strip line) in
    if length fields <=? sample_id_idx then samples_in_file
    else
      match fields !! sample_id_idx with
      | Some f =>
          let sample_id := py_strip f in
          if nonempty sample_id then {[sample_id]} ∪ samples_in_file
          else samples_in_file
      | None => samples_in_file
      end.

(** [is_file_entirely_model(mutation_file, model_samples)] *)
Definition is_file_entirely_model (fs : fsys) (mutation_file : string)
    (model_samples : gset string) : result bool :=
  let! delimiter := _detect_delimiter fs mutation_file in
  match read_lines fs mutation_file with
  | None => Err (OSError mutation_file)
  | Some lines =>
      Ok match next_noncomment lines with
         | None => false
         | Some (header_line, rest) =>
             if negb (nonempty header_line) then false
             else
               let headers := py_split delimiter (py_strip header_line) in
               match get_sample_id_column_index headers with
               | None => false
               | Some sample_id_idx =>
                   let samples_in_file :=
                     fold_left (entirely_row delimiter sample_id_idx) rest ∅ in
                   if bool_decide (samples_in_file = ∅) then false
                   else bool_decide (samples_in_file ⊆ model_samples)
               end
         end
  end.

Definition fs_one (p : string) (lines : list string) : fsys :=
  {| read_lines := fun q => if String.eqb q p then Some lines else None |}.

(* ------------------------------------------------------------------ *)
(** ** combine_mutations.py *)

(** [MODEL_STUDY_PATTERNS] *)
Definition MODEL_STUDY_PATTERNS : list (list ratom) :=
  [bounded "ccle"; bounded "pdx"; bounded "cellline"; bounded "cell_line";
   bounded "xenograft"; bounded "test"].

(** [is_model_study_path(path)] *)
Definition is_model_study_path (path : string) : bool :=
  let path_lower := py_lower path in
  existsb (fun pattern => re_search pattern path_lower) MODEL_STUDY_PATTERNS.

(** [extract_study_info(file_path)] as [(proj_name, study, center)].  With
    fewer than three ['/']-parts, [os.path.basename(os.path.dirname(p))]
    is the first part when there are two parts (["a/b"] gives ["a"],
    ["/b"] gives [""]) and [""] when there is one. *)
Definition extract_study_info (file_path : string) : string * string * string :=
  let parts := py_split "/"%char file_path in
  if 3 <=? length parts then
    let proj_name := default EmptyString (parts !! (length parts - 2)) in
    let study_parts := py_split "_"%char proj_name in
    match study_parts with
    | study :: center :: _ => (proj_name, study, center)
    | _ => (proj_name, proj_name, EmptyString)
    end
  else
    let proj_name := match parts with [p0; _] => p0 | _ => EmptyString end in
    (proj_name, proj_name, EmptyString).

(** [uid = study + center] *)
Definition study_uid (file_path : string) : string :=
  let '(_, study, center) := extract_study_info file_path in study ++ center.

(** Column roles found by the header loop of [process_mutation_file]. *)
Record roles := {
  gene_idx : option nat;
  vtype_idx : option nat;
  hgvsp_idx : option nat;
  sample_idx : option nat;
  classification_idx : option nat }.

Definition no_roles : roles := Build_roles None None None None None.

(** One iteration of [for i, header in enumerate(headers)]: the
    [if/elif] chain on [header.strip()]. *)
Definition resolve_step (r : roles) (i : nat) (header : string) : roles :=
  let header_clean := py_strip header in
  if String.eqb header_clean "Hugo_Symbol" then
    Build_roles (Some i) (vtype_idx r) (hgvsp_idx r) (sample_idx r) (classification_idx r)
  else if String.eqb header_clean "Variant_Type" then
    Build_roles (gene_idx r) (Some i) (hgvsp_idx r) (sample_idx r) (classification_idx r)
  else if String.eqb header_clean "HGVSp" then
    Build_roles (gene_idx r) (vtype_idx r) (Some i) (sample_idx r) (classification_idx r)
  else if String.eqb header_clean "Tumor_Sample_Barcode" then
    Build_roles (gene_idx r) (vtype_idx r) (hgvsp_idx r) (Some i) (classification_idx r)
  else if String.eqb header_clean "Consequence" then
    Build_roles (gene_idx r) (vtype_idx r) (hgvsp_idx r) (sample_idx r) (Some i)
  else r.

Fixpoint resolve_from (i : nat) (r : roles) (headers : list string) : roles :=
  match headers with
  | [] => r
  | h :: hs => resolve_from (S i) (resolve_step r i h) hs
  end.

(** Lines 177-198: the header loop, then the [get_sample_id_column_index]
    fall-back when [Tumor_Sample_Barcode] was not found. *)
Definition resolve_columns (headers : list string) : roles :=
  let r := resolve_from 0 no_roles headers in
  match sample_idx r with
  | Some _ => r
  | None =>
      Build_roles (gene_idx r) (vtype_idx r) (hgvsp_idx r)
        (get_sample_id_column_index headers) (classification_idx r)
  end.

Definition is_digit (c : ascii) : bool :=
  let n := nat_of_ascii c in (48 <=? n) && (n <=? 57).

(** [re.findall(r'\d+', s)]: the maximal runs of digits, left to right. *)
Fixpoint findall_digits (s : string) : list string :=
  match s with
  | EmptyString => []
  | String c s' =>
      let r := findall_digits s' in
      if is_digit c then
        match s' with
        | String c' _ =>
            if is_digit c' then
              match r with
              | x :: xs => String c x :: xs
              | [] => [String c EmptyString]
              end
            else String c EmptyString :: r
        | EmptyString => [String c EmptyString]
        end
      else r
  end.

(** Lines 234-251: [(fsstart, fslen)]. *)
Definition frameshift_info (classification hgvsp : string) : string * string :=
  let '(fsstart, fslen) :=
    if negb (py_contains "frameshift" (py_lower classification)) then
      (EmptyString, "0")
    else
      let numbers := findall_digits hgvsp in
      let fsstart := match numbers with n :: _ => n | [] => EmptyString end in
      let fslen := match numbers with _ :: n2 :: _ => n2 | _ => "0" end in
      (fsstart, fslen) in
  (fsstart, if nonempty fslen then fslen else "0").

(** The seven fields of an output line. *)
Record output_record := {
  o_proj : string; o_gene : string; o_sample : string; o_vtype : string;
  o_hgvsp : string; o_fsstart : string; o_fslen : string }.

(** Lines 230-251 on the extracted values. *)
Definition make_record (proj_name gene sample vtype hgvsp classification : string)
    : output_record :=
  let vtype := if py_contains "inframe" (py_lower classification) then "SNP" else vtype in
  let '(fsstart, fslen) := frameshift_info classification hgvsp in
  Build_output_record proj_name gene sample vtype hgvsp fsstart fslen.

(** Line 253: the seven fields joined by tabs. *)
Definition format_record (o : output_record) : string :=
  String.concat (String tab EmptyString)
    [o_proj o; o_gene o; o_sample o; o_vtype o; o_hgvsp o; o_fsstart o; o_fslen o].

(** [fields[idx] if idx is not None and len(fields) > idx else ""] *)
Definition get_field (fields : list string) (idx : option nat) : string :=
  match idx with
  | Some i => if i <? length fields then default EmptyString (fields !! i) else EmptyString
  | None => EmptyString
  end.

(** One iteration of the data loop (lines 210-255): [None] for a skipped or
    filtered row, else the record it emits. *)
Definition mutation_row (delimiter : ascii) (proj_name : string)
    (model_samples : gset string) (include_model : bool) (r : roles)
    (hgvsp_i : nat) (line : string) : option output_record :=
  if skipped_line line then None
  else
    let fields := py_split delimiter (py_strip line) in
    let filtered :=
      match sample_idx r with
      | Some si =>
          negb include_model && negb (bool_decide (model_samples = ∅)) &&
          (si <? length fields) &&
          bool_decide (py_strip (default EmptyString (fields !! si)) ∈ model_samples)
      | None => false
      end in
    if filtered then None
    else
      let gene := get_field fields (gene_idx r) in
      let sample := get_field fields (sample_idx r) in
      let vtype := get_field fields (vtype_idx r) in
      let hgvsp := get_field fields (Some hgvsp_i) in
      let classification := get_field fields (classification_idx r) in
      Some (make_record proj_name gene sample vtype hgvsp classification).

Fixpoint mutation_rows (delimiter : ascii) (proj_name : string)
    (model_samples : gset string) (include_model : bool) (r : roles)
    (hgvsp_i : nat) (lines : list string) : list string :=
  match lines with
  | [] => []
  | line :: rest =>
      let out := mutation_rows delimiter proj_name model_samples include_model r hgvsp_i rest in
      match mutation_row delimiter proj_name model_samples include_model r hgvsp_i line with
      | Some o => format_record o :: out
      | None => out
      end
  end.

(** The body of the [try] block (lines 161-258) once the file is open. *)
Definition read_mutation_lines (delimiter : ascii) (proj_name : string)
    (model_samples : gset string) (include_model : bool) (lines : list string)
    : list string :=
  match next_noncomment lines with
  | None => []
  | Some (l, rest) =>
      let header_line := py_strip l in
      if negb (nonempty header_line) then []
      else
        let headers := py_split delimiter header_line in
        let r := resolve_columns headers in
        match hgvsp_idx r with
        | None => []
        | Some hgvsp_i =>
            mutation_rows delimiter proj_name model_samples include_model r hgvsp_i rest
        end
  end.

(** Lines 145-264 of [process_mutation_file], after the duplicate check.
    The path and whole-file checks and [_detect_delimiter] run before the
    [try]; inside it, a failing [open] is caught and gives [[]]. *)
Definition process_after_dedup (fs : fsys) (file_path : string)
    (model_samples : gset string) (include_model : bool) (proj_name : string)
    : result (list string) :=
  if negb include_model && is_model_study_path file_path then Ok []
  else
    let! entirely :=
      if negb include_model && negb (bool_decide (model_samples = ∅))
      then is_file_entirely_model fs file_path model_samples
      else Ok false in
    if entirely then Ok []
    else
      let! delimiter := _detect_delimiter fs file_path in
      match read_lines fs file_path with
      | None => Ok []
      | Some lines =>
          Ok (read_mutation_lines delimiter proj_name model_samples include_model lines)
      end.

(** [process_mutation_file(file_path, model_samples, seen_uids,
    include_model)]: the outcome and the set [seen_uids] after the call
    (it is mutated in place, so the addition survives an exception). *)
Definition process_mutation_file (fs : fsys) (file_path : string)
    (model_samples seen_uids : gset string) (include_model : bool)
    : result (list string) * gset string :=
  let '(proj_name, study, center) := extract_study_info file_path in
  let uid := study ++ center in
  if bool_decide (uid ∈ seen_uids) then (Ok [], seen_uids)
  else
    (process_after_dedup fs file_path model_samples include_model proj_name,
     {[uid]} ∪ seen_uids).

(** The loop of [main] over the files (lines 328-343), keeping each
    file's output lines; an exception leaves the loop and ends [main]. *)
Fixpoint process_files (fs : fsys) (model_samples : gset string)
    (include_model : bool) (seen_uids : gset string) (files : list string)
    : result (list (list string)) :=
  match files with
  | [] => Ok []
  | f :: rest =>
      let '(r, seen_uids') := process_mutation_file fs f model_samples seen_uids include_model in
      let! output_lines := r in
      let! outs := process_files fs model_samples include_model seen_uids' rest in
      Ok (output_lines :: outs)
  end.

(** [sorted(mutation_files)]: Python orders strings by code points, as
    [String.le] does; a sort for a total order is unique. *)
Definition py_sorted (l : list string) : list string := merge_sort String.le l.

(** [all_output_lines] of [main] for the discovered [mutation_files]. *)
Definition merge_mutation_files (fs : fsys) (model_samples : gset string)
    (include_model : bool) (mutation_files : list string) : result (list string) :=
  let! outs := process_files fs model_samples include_model ∅ (py_sorted mutation_files) in
  Ok (concat outs).

Definition maf_lines : list string :=
  ["#version 2.4
"; "Hugo_Symbol	Tumor_Sample_Barcode	HGVSp	Consequence
";
   "TP53	S1	p.P45fs*12	frameshift_variant
"; "KRAS	S2	p.G12D	missense_variant
"].

(* ------------------------------------------------------------------ *)
(** ** The last character of a string *)

(** The character before the end of [s], [prev] when [s] is empty. *)
Fixpoint last_of (prev : option ascii) (s : string) : option ascii :=
  match s with
  | EmptyString => prev
  | String c s' => last_of (Some c) s'
  end.

(* ------------------------------------------------------------------ *)
(** ** sample_filter.py: [filter_mutation_rows] *)

(** The loop of lines 308-313 of [filter_mutation_rows]: the comment lines
    met before the header, and the header with the rest of the iterator. *)
Fixpoint split_comments (lines : list string) : list string * option (string * list string) :=
  match lines with
  | [] => ([], None)
  | l :: r =>
      if starts_with_hash l then let '(cs, h) := split_comments r in (l :: cs, h)
      else ([], Some (l, r))
  end.

(** The data loop of lines 338-356: the lines appended to [output_lines],
    [rows_kept] and [rows_filtered]. *)
Fixpoint filter_rows (delimiter : ascii) (sample_id_idx : nat) (model_samples : gset string)
    (lines : list string) : list string * nat * nat :=
  match lines with
  | [] => ([], 0, 0)
  | line :: rest =>
      let '(out, rows_kept, rows_filtered) :=
        filter_rows delimiter sample_id_idx model_samples rest in
      if skipped_line line then (line :: out, rows_kept, rows_filtered)
      else
        let fields := py_split delimiter (py_strip line) in
        if length fields <=? sample_id_idx then (line :: out, S rows_kept, rows_filtered)
        else
          let sample_id := py_strip (default EmptyString (fields !! sample_id_idx)) in
          if bool_decide (sample_id ∈ model_samples) then (out, rows_kept, S rows_filtered)
          else (line :: out, S rows_kept, rows_filtered)
  end.

(** [line if line.endswith('\n') else line + '\n'] *)
Definition ensure_nl (line : string) : string :=
  match last_of None line with
  | Some c => if (c =? nl)%char then line else line ++ String nl EmptyString
  | None => line ++ String nl EmptyString
  end.

(** [if output_file:]: [None] and [''] write nothing. *)
Definition output_target (output_file : option string) : option string :=
  match output_file with
  | Some out => if nonempty out then Some out else None
  | None => None
  end.

(** [filter_mutation_rows(mutation_file, model_samples, output_file)]:
    [(rows_kept, rows_filtered)] and the strings written to [output_file],
    in order ([None] when it is not opened).  [writable q] tells whether
    [open(q, 'w')] succeeds. *)
Definition filter_mutation_rows (fs : fsys) (writable : string -> bool)
    (mutation_file : string) (model_samples : gset string) (output_file : option string)
    : result (nat * nat * option (list string)) :=
  let! delimiter := _detect_delimiter fs mutation_file in
  match read_lines fs mutation_file with
  | None => Err (OSError mutation_file)
  | Some lines =>
      let '(comment_lines, hdr) := split_comments lines in
      match hdr with
      | None => Ok (0, 0, None)
      | Some (header_line, rest) =>
          if negb (nonempty header_line) then Ok (0, 0, None)
          else
            let headers := py_split delimiter (py_strip header_line) in
            match get_sample_id_column_index headers with
            | None =>
                match output_target output_file with
                | Some out =>
                    if writable out
                    then Ok (length rest, 0, Some (comment_lines ++ header_line :: rest)%list)
                    else Err (OSError out)
                | None => Ok (0, 0, None)
                end
            | Some sample_id_idx =>
                let '(kept_lines, rows_kept, rows_filtered) :=
                  filter_rows delimiter sample_id_idx model_samples rest in
                let output_lines := (comment_lines ++ header_line :: kept_lines)%list in
                match output_target output_file with
                | Some out =>
                    if writable out
                    then Ok (rows_kept, rows_filtered, Some (map ensure_nl output_lines))
                    else Err (OSError out)
                | None => Ok (rows_kept, rows_filtered, None)
                end
            end
      end
  end.

(* ------------------------------------------------------------------ *)
(** ** combine_mutations.py: the gene counts of [main] *)

(** [dict.get(key, 0)] on a [dict] kept as its items in insertion order. *)
Fixpoint dict_get (key : string) (d : list (string * nat)) : nat :=
  match d with
  | [] => 0
  | (k, v) :: d' => if String.eqb k key then v else dict_get key d'
  end.

(** [d[key] = value]: an existing key keeps its place, a new one goes last. *)
Fixpoint dict_set (key : string) (value : nat) (d : list (string * nat))
    : list (string * nat) :=
  match d with
  | [] => [(key, value)]
  | (k, v) :: d' => if String.eqb k key then (k, value) :: d' else (k, v) :: dict_set key value d'
  end.

(** Lines 340-343 of [main] for one output line. *)
Definition count_gene (gene_counts : list (string * nat)) (line : string)
    : list (string * nat) :=
  let parts := py_split tab line in
  if 2 <=? length parts then
    match parts !! 1 with
    | Some gene => dict_set gene (S (dict_get gene gene_counts)) gene_counts
    | None => gene_counts
    end
  else gene_counts.

(** [gene_counts] of [main] once the loop has seen [all_output_lines]; its
    items are the lines of the [.cnt] file. *)
Definition gene_counts_of (all_output_lines : list string) : list (string * nat) :=
  fold_left count_gene all_output_lines [].

(* ------------------------------------------------------------------ *)
(** ** Auxiliary definitions used by the properties and their witnesses *)

Fixpoint all_digits (s : string) : bool :=
  match s with
  | EmptyString => true
  | String c s' => is_digit c && all_digits s'
  end.

Fixpoint no_digits (s : string) : bool :=
  match s with
  | EmptyString => true
  | String c s' => negb (is_digit c) && no_digits s'
  end.

Definition starts_with_digit (s : string) : bool :=
  match s with String c _ => is_digit c | EmptyString => false end.

(** The last index [i >= k] of [hs] (numbered from [k]) whose stripped
    header is exactly [x]. *)
Fixpoint last_exact_from (k : nat) (x : string) (hs : list string) : option nat :=
  match hs with
  | [] => None
  | h :: hs' =>
      match last_exact_from (S k) x hs' with
      | Some j => Some j
      | None => if String.eqb (py_strip h) x then Some k else None
      end
  end.

Definition or_else (o d : option nat) : option nat :=
  match o with Some j => Some j | None => d end.

(** [s] is a sample identifier of a data row of the file [lines]: the row
    follows the header, is neither a comment nor blank, has a field in
    the sample-ID column, and that field stripped is the non-empty [s]. *)
Definition file_sample_id (lines : list string) (s : string) : Prop :=
  exists header rest idx line f,
    next_noncomment lines = Some (header, rest) /\
    get_sample_id_column_index
      (py_split (detect_delimiter_lines lines) (py_strip header)) = Some idx /\
    line ∈ rest /\ skipped_line line = false /\
    py_split (detect_delimiter_lines lines) (py_strip line) !! idx = Some f /\
    py_strip f = s /\ s <> EmptyString.

Definition merge_step (fs : fsys) (sample_is_model : gmap string bool)
    (metadata_file : string) : gmap string bool :=
  match _parse_metadata_file fs metadata_file with
  | Ok file_mapping => file_mapping ∪ sample_is_model
  | Err _ => sample_is_model
  end.

Definition meta_fs : fsys :=
  {| read_lines := fun p =>
       if String.eqb p "a.tsv" then Some ["sample_id	sample_type
"; "S1	PDX
"; "S2	Patient
"]
       else if String.eqb p "b.tsv" then Some ["sample_id	sample_type
"; "S1	Primary Tumor
"]
       else None |}.

Definition proj_of (file_path : string) : string :=
  let '(proj_name, _, _) := extract_study_info file_path in proj_name.

Definition study_center (file_path : string) : string * string :=
  let '(_, study, center) := extract_study_info file_path in (study, center).

(** The keys seen before the [j]-th file of the loop. *)
Definition seen_before (seen : gset string) (files : list string) (j : nat) : gset string :=
  seen ∪ list_to_set (map study_uid (take j files)).

Definition two_studies_fs : fsys :=
  {| read_lines := fun p =>
       if String.eqb p "x/a_bc/data_mutations.txt" then
         Some ["Hugo_Symbol	Tumor_Sample_Barcode	HGVSp	Consequence
";
               "TP53	P1	p.R175H	missense_variant
"]
       else if String.eqb p "x/ab_c/data_mutations.txt" then
         Some ["Hugo_Symbol	Tumor_Sample_Barcode	HGVSp	Consequence
";
               "KRAS	P2	p.G12D	missense_variant
"]
       else None |}.

Definition two_studies : list string :=
  ["x/ab_c/data_mutations.txt"; "x/a_bc/data_mutations.txt"].

Definition claimed_fs : fsys :=
  {| read_lines := fun p =>
       if String.eqb p "b/brca_tcga/data_mutations.txt" then
         Some ["Hugo_Symbol	Tumor_Sample_Barcode	HGVSp	Consequence
";
               "TP53	P1	p.R175H	missense_variant
"]
       else None |}.

(** A dangling [data_mutations] link: [open] raises. *)
Definition dangling_fs : fsys := {| read_lines := fun _ => None |}.

Definition starts_nonspace (s : string) : bool :=
  match s with String c _ => negb (py_isspace c) | EmptyString => false end.

Definition ends_nonspace (s : string) : bool :=
  match last_of None s with Some c => negb (py_isspace c) | None => false end.

Definition unbounded_model_terms : list string :=
  ["cell line"; "cell-line"; "cell_line"; "cellline"; "in vitro"; "in-vitro"; "invitro"].

Definition bounded_model_terms : list string := ["pdx"; "xenograft"; "model"; "ccle"].

(** The claim's reading: each listed term only as a whole word. *)
Definition claimed_word_patterns : list (list ratom) :=
  [bounded "pdx"; bounded "xenograft";
   (RWb :: lit "cell" ++ [ROpt [" "%char; "_"%char]] ++ lit "line" ++ [RWb])%list;
   (RWb :: lit "in" ++ [ROpt hyphen_space] ++ lit "vitro" ++ [RWb])%list;
   bounded "model"].

(** The entry a data row of a metadata file writes (lines 250-263). *)
Definition metadata_entry (delimiter : ascii) (sample_id_idx sample_type_idx : nat)
    (line : string) : option (string * bool) :=
  if skipped_line line then None
  else
    let fields := py_split delimiter (py_strip line) in
    if length fields <=? Nat.max sample_id_idx sample_type_idx then None
    else
      match fields !! sample_id_idx, fields !! sample_type_idx with
      | Some f_id, Some f_type =>
          let sample_id := py_strip f_id in
          if nonempty sample_id
          then Some (sample_id, is_model_sample (Some (py_strip f_type)))
          else None
      | _, _ => None
      end.

(** The sample a data row writes, if any. *)
Definition metadata_key (delimiter : ascii) (sample_id_idx sample_type_idx : nat)
    (line : string) : option string :=
  fst <$> metadata_entry delimiter sample_id_idx sample_type_idx line.

Definition study_path_words : list string :=
  ["ccle"; "pdx"; "cellline"; "cell_line"; "xenograft"; "test"].

(** A data row [filter_mutation_rows] drops: not skipped, long enough, and
    its stripped sample identifier is a model sample. *)
Definition model_row (delimiter : ascii) (sample_id_idx : nat)
    (model_samples : gset string) (line : string) : bool :=
  let fields := py_split delimiter (py_strip line) in
  negb (skipped_line line) && (sample_id_idx <? length fields) &&
  bool_decide (py_strip (default EmptyString (fields !! sample_id_idx)) ∈ model_samples).

(** The gene [main] counts for an output line: [parts[1]] when the line
    has at least two tab-separated parts. *)
Definition line_gene (line : string) : option string :=
  let parts := py_split tab line in
  if 2 <=? length parts then parts !! 1 else None.

Definition meta_lines : list string :=
  ["#samples"; "SAMPLE_ID	SAMPLE_TYPE"; "S1	PDX"; "S2	Primary"; "S1	Patient"].

Definition maf_roles : roles :=
  resolve_columns (py_split tab "Hugo_Symbol	Tumor_Sample_Barcode	HGVSp	Consequence").

Definition fs_record : output_record :=
  Build_output_record "st_ce" "TP53" "S1" EmptyString "p.P45fs*12" "45" "12".

Definition filter_lines : list string :=
  ["#v2"; "Hugo_Symbol	Tumor_Sample_Barcode"; "TP53	S1"; ""; "KRAS	M1"].

(* ================================================================== *)
(** * Properties *)

(** ** Evaluations on small inputs *)

Example ims1 : is_model_sample (Some "Patient Derived Xenograft") = true.
Proof. vm_compute. reflexivity. Qed.
Example ims2 : is_model_sample (Some "modeling") = false.
Proof. vm_compute. reflexivity. Qed.
Example ims3 : is_model_sample (Some "invitrogen") = true.
Proof. vm_compute. reflexivity. Qed.
Example ims4 : is_model_sample (Some "  Primary Tumor ") = false.
Proof. vm_compute. reflexivity. Qed.
Example ims5 : is_model_sample (Some "tumor model") = true.
Proof. vm_compute. reflexivity. Qed.

Example dd1 : _detect_delimiter (fs_one "f" ["#c,,,"; "a,b"; "x"]) "f" = Ok comma.
Proof. reflexivity. Qed.

Example pm1 : _parse_metadata_file
  (fs_one "m.tsv" ["SAMPLE_ID	SAMPLE_TYPE
"; "S1	Patient
"; "S2	PDX
"]) "m.tsv"
  = Ok (<["S2" := true]> (<["S1" := false]> ∅)).
Proof. vm_compute. reflexivity. Qed.

Example fem1 : is_file_entirely_model
  (fs_one "m.tsv" ["Tumor_Sample_Barcode	x
"; "S2	1
"; "S3	2
"]) "m.tsv" {["S2"; "S3"]} = Ok true.
Proof. vm_compute. reflexivity. Qed.

Example pm_ok : process_mutation_file (fs_one "d/st_ce/data_mutations.txt" maf_lines)
  "d/st_ce/data_mutations.txt" ∅ ∅ false
  = (Ok ["st_ce	TP53	S1		p.P45fs*12	45	12"; "st_ce	KRAS	S2		p.G12D		0"],
     {["stce"]}).
Proof. vm_compute. reflexivity. Qed.

(** ** String lemmas *)

Lemma sapp_nil (s : string) : EmptyString ++ s = s.
Proof. reflexivity. Qed.

Lemma sapp_cons (c : ascii) (s1 s2 : string) : String c s1 ++ s2 = String c (s1 ++ s2).
Proof. reflexivity. Qed.

Lemma sapp_assoc (s1 s2 s3 : string) : (s1 ++ s2) ++ s3 = s1 ++ (s2 ++ s3).
Proof. induction s1; rewrite ?sapp_cons, ?sapp_nil; [done|by rewrite IHs1]. Qed.

Lemma sapp_nil_r (s : string) : s ++ EmptyString = s.
Proof. induction s; rewrite ?sapp_cons, ?sapp_nil; [done|by rewrite IHs]. Qed.

Lemma next_noncomment_app (cs tail : list string) :
  Forall (fun c => starts_with_hash c = true) cs ->
  next_noncomment (cs ++ tail) = next_noncomment tail.
Proof. induction 1 as [|c cs Hc _ IH]; [done|]. simpl. by rewrite Hc. Qed.

(** ** Digit runs: [findall_digits] returns the maximal runs in order. *)

Lemma findall_digits_nonempty (s : string) :
  Forall (fun x => nonempty x = true) (findall_digits s).
Proof.
  induction s as [|c s IH]; simpl; [constructor|].
  destruct (is_digit c); [|done].
  destruct s as [|c' s']; [by repeat constructor|].
  destruct (is_digit c'); [|by constructor].
  destruct (findall_digits (String c' s')) as [|x xs]; repeat constructor.
  by inversion IH.
Qed.

Lemma findall_digits_skip (a s : string) :
  no_digits a = true -> findall_digits (a ++ s) = findall_digits s.
Proof.
  induction a as [|c a IH]; [done|]. simpl.
  intros [Hc Ha]%andb_prop. rewrite ?sapp_cons. simpl.
  apply negb_true_iff in Hc. rewrite Hc. by apply IH.
Qed.

Lemma findall_digits_run (d b : string) :
  nonempty d = true -> all_digits d = true -> starts_with_digit b = false ->
  findall_digits (d ++ b) = d :: findall_digits b.
Proof.
  induction d as [|c d IH]; [done|]. intros _ Hd Hb. simpl in Hd.
  apply andb_prop in Hd as [Hc Hd]. rewrite ?sapp_cons. simpl. rewrite Hc.
  destruct d as [|c' d'].
  - rewrite ?sapp_nil. destruct b as [|cb b']; [done|]. simpl in Hb. by rewrite Hb.
  - rewrite ?sapp_cons. simpl in Hd. apply andb_prop in Hd as [Hc' Hd'].
    rewrite Hc'. rewrite <- sapp_cons, IH; [done|done|simpl; by rewrite Hc'|done].
Qed.

(** Maximal digit runs in order of appearance: a digit-free prefix is
    ignored and a run ended by a non-digit comes out whole. *)
Lemma findall_digits_runs (a d b : string) :
  no_digits a = true -> nonempty d = true -> all_digits d = true ->
  starts_with_digit b = false ->
  findall_digits (a ++ d ++ b) = d :: findall_digits b.
Proof. intros. rewrite findall_digits_skip by done. by apply findall_digits_run. Qed.

(** ** C8: delimiter detection *)

(** C8: after leading lines that start with ['#'], the first other line
    decides: tab when it has at least as many tabs as commas, else comma;
    an empty or all-comment file gives tab. *)
Theorem _detect_delimiter_spec (fs : fsys) (file_path : string)
    (cs tail : list string)
    (Hread : read_lines fs file_path = Some (cs ++ tail)%list)
    (Hcs : Forall (fun c => starts_with_hash c = true) cs)
    (Htail : match tail with [] => True | l :: _ => starts_with_hash l = false end) :
  _detect_delimiter fs file_path =
    Ok match tail with
       | [] => tab
       | l :: _ => if py_count comma l <=? py_count tab l then tab else comma
       end.
Proof.
  unfold _detect_delimiter, detect_delimiter_lines. rewrite Hread.
  rewrite next_noncomment_app by done.
  destruct tail as [|l rest]; [done|]. simpl. rewrite Htail.
  by destruct l.
Qed.

Lemma _detect_delimiter_spec_witness :
  read_lines (fs_one "f" ["# c,"; "a	b,c"; "x"]) "f" = Some (["# c,"] ++ ["a	b,c"; "x"])%list /\
  _detect_delimiter (fs_one "f" ["# c,"; "a	b,c"; "x"]) "f" = Ok tab.
Proof.
  split; [reflexivity|].
  refine (eq_trans (_detect_delimiter_spec _ _ ["# c,"] ["a	b,c"; "x"] _ _ _) _);
    [reflexivity | repeat constructor | reflexivity | reflexivity].
Defined.

(** ** C3: frameshift fields *)

(** C3: without "frameshift" in the consequence the record has start ""
    and length "0"; with it, start is the first digit run of the
    amino-acid change (or "") and length the second (or "0"). *)
Theorem make_record_frameshift (proj_name gene sample vtype hgvsp classification : string) :
  let o := make_record proj_name gene sample vtype hgvsp classification in
  (o_fsstart o, o_fslen o) =
    if py_contains "frameshift" (py_lower classification)
    then (match findall_digits hgvsp with n :: _ => n | [] => EmptyString end,
          match findall_digits hgvsp with _ :: n2 :: _ => n2 | _ => "0" end)
    else (EmptyString, "0").
Proof.
  cbv zeta. unfold make_record, frameshift_info.
  destruct (py_contains "frameshift" (py_lower classification)); simpl; [|done].
  pose proof (findall_digits_nonempty hgvsp) as Hne.
  destruct (findall_digits hgvsp) as [|n1 [|n2 ns]]; simpl; try done.
  inversion Hne as [|? ? _ Hne']; subst. inversion Hne'; subst. by rewrite H1.
Qed.

Example frameshift_45_12 :
  findall_digits "p.P45Rfs*12" = ["45"; "12"] /\
  frameshift_info "frameshift_variant" "p.P45Rfs*12" = ("45", "12") /\
  frameshift_info "missense_variant" "p.P45Rfs*12" = (EmptyString, "0") /\
  frameshift_info "Frameshift_Variant" "p.K7fs" = ("7", "0").
Proof. vm_compute. repeat split. Qed.

(** ** C2: column roles of a mutation-file header *)

Ltac resolve_case :=
  repeat match goal with
  | |- context [String.eqb ?a ?b] => destruct (String.eqb_spec a b)
  | H : ?a = ?x, H' : ?a = ?y |- _ => rewrite H in H'; discriminate H'
  end.

Lemma resolve_from_fields (k : nat) (r : roles) (hs : list string) :
  resolve_from k r hs =
    Build_roles (or_else (last_exact_from k "Hugo_Symbol" hs) (gene_idx r))
      (or_else (last_exact_from k "Variant_Type" hs) (vtype_idx r))
      (or_else (last_exact_from k "HGVSp" hs) (hgvsp_idx r))
      (or_else (last_exact_from k "Tumor_Sample_Barcode" hs) (sample_idx r))
      (or_else (last_exact_from k "Consequence" hs) (classification_idx r)).
Proof.
  revert k r. induction hs as [|h hs IH]; intros k r.
  - by destruct r.
  - simpl. rewrite IH. unfold resolve_step.
    destruct (last_exact_from (S k) "Hugo_Symbol" hs),
      (last_exact_from (S k) "Variant_Type" hs),
      (last_exact_from (S k) "HGVSp" hs),
      (last_exact_from (S k) "Tumor_Sample_Barcode" hs),
      (last_exact_from (S k) "Consequence" hs); simpl;
    resolve_case; simpl; done.
Qed.

(** C2 (as the code does it): gene, variant type, amino-acid change and
    consequence resolve to the last column whose stripped name is exactly
    (with case) "Hugo_Symbol", "Variant_Type", "HGVSp", "Consequence"; the
    sample ID to the last column named exactly "Tumor_Sample_Barcode", and
    only without one to the case-insensitive synonym lookup. *)
Theorem resolve_columns_exact (headers : list string) :
  resolve_columns headers =
    Build_roles (last_exact_from 0 "Hugo_Symbol" headers)
      (last_exact_from 0 "Variant_Type" headers)
      (last_exact_from 0 "HGVSp" headers)
      (or_else (last_exact_from 0 "Tumor_Sample_Barcode" headers)
         (_find_column_index headers SAMPLE_ID_COLUMNS))
      (last_exact_from 0 "Consequence" headers).
Proof.
  unfold resolve_columns. rewrite resolve_from_fields. simpl.
  unfold or_else, get_sample_id_column_index.
  destruct (last_exact_from 0 "Hugo_Symbol" headers), (last_exact_from 0 "Variant_Type" headers),
    (last_exact_from 0 "HGVSp" headers), (last_exact_from 0 "Tumor_Sample_Barcode" headers),
    (last_exact_from 0 "Consequence" headers); done.
Qed.

(** C2 fails: lower-case MAF column names resolve no role but the sample
    ID, and a file with such a header yields no records at all. *)
Lemma resolve_columns_lowercase_cex :
  resolve_columns ["hugo_symbol"; "variant_type"; "hgvsp"; "tumor_sample_barcode"; "consequence"]
    = Build_roles None None None (Some 3) None /\
  process_mutation_file
    (fs_one "d/st_ce/data_mutations.txt"
       ["hugo_symbol	tumor_sample_barcode	hgvsp	consequence
";
        "TP53	S1	p.P45fs*12	frameshift_variant
"])
    "d/st_ce/data_mutations.txt" ∅ ∅ false = (Ok [], {["stce"]}).
Proof. split; vm_compute; reflexivity. Qed.

(** ** C4: whole-file model detection *)

Lemma lookup_lt_length (l : list string) (i : nat) :
  (length l <=? i) = false -> exists x, l !! i = Some x.
Proof. intros H. apply Nat.leb_gt in H. apply lookup_lt_is_Some_2 in H as [x Hx]. eauto. Qed.

Lemma entirely_row_elem (d : ascii) (idx : nat) (acc : gset string) (line s : string) :
  s ∈ entirely_row d idx acc line <->
  s ∈ acc \/ (skipped_line line = false /\
              exists f, py_split d (py_strip line) !! idx = Some f /\
                        py_strip f = s /\ s <> EmptyString).
Proof.
  unfold entirely_row.
  destruct (skipped_line line); [naive_solver|].
  destruct (length (py_split d (py_strip line)) <=? idx) eqn:Hlen.
  - apply Nat.leb_le in Hlen. split; [naive_solver|].
    intros [?|(_ & f & Hf & _)]; [done|].
    apply lookup_lt_Some in Hf. lia.
  - destruct (lookup_lt_length _ _ Hlen) as [f Hf]. rewrite Hf.
    destruct (nonempty (py_strip f)) eqn:Hne.
    + rewrite elem_of_union, elem_of_singleton. split.
      * intros [->|?]; [|by left]. right. split; [done|].
        exists f. split; [done|]. split; [done|]. by destruct (py_strip f).
      * intros [?|(_ & f' & Hf' & <- & _)]; [by right|]. left.
        by simplify_eq.
    + split; [by left|]. intros [?|(_ & f' & Hf' & <- & Hs)]; [done|].
      simplify_eq. match goal with H : nonempty ?x = false |- _ => by destruct x end.
Qed.

Lemma entirely_rows_elem (d : ascii) (idx : nat) (rest : list string)
    (acc : gset string) (s : string) :
  s ∈ fold_left (entirely_row d idx) rest acc <->
  s ∈ acc \/ exists line f, line ∈ rest /\ skipped_line line = false /\
    py_split d (py_strip line) !! idx = Some f /\ py_strip f = s /\ s <> EmptyString.
Proof.
  revert acc. induction rest as [|line rest IH]; intros acc; simpl.
  - split; [by left|]. intros [?|(? & ? & Hin & _)]; [done|]. by apply elem_of_nil in Hin.
  - rewrite IH, entirely_row_elem. setoid_rewrite elem_of_cons. naive_solver.
Qed.

(** C4: on a readable file, [is_file_entirely_model] returns true exactly
    when the file has at least one sample identifier in its data rows and
    every one of them is a model sample; otherwise it returns false. *)
Theorem is_file_entirely_model_iff (fs : fsys) (mutation_file : string)
    (model_samples : gset string) (lines : list string)
    (Hread : read_lines fs mutation_file = Some lines) :
  exists b, is_file_entirely_model fs mutation_file model_samples = Ok b /\
    (b = true <-> (exists s, file_sample_id lines s) /\
                  (forall s, file_sample_id lines s -> s ∈ model_samples)).
Proof.
  unfold is_file_entirely_model, _detect_delimiter. rewrite Hread. simpl.
  eexists. split; [reflexivity|].
  unfold file_sample_id.
  destruct (next_noncomment lines) as [[header rest]|] eqn:Hnc.
  2:{ split; [done|]. intros [(s & h & ? & ? & ? & ? & Hh & _) _]. congruence. }
  set (d := detect_delimiter_lines lines).
  assert (Hhdr : nonempty header = false ->
                 get_sample_id_column_index (py_split d (py_strip header)) = None).
  { destruct header; [done|]. discriminate. }
  destruct (nonempty header) eqn:Hne; simpl.
  2:{ split; [done|]. intros [(s & h & r & i & ? & ? & Hh & Hi & _) _].
      simplify_eq; try (rewrite Hhdr in Hi by done; discriminate). }
  destruct (get_sample_id_column_index (py_split d (py_strip header))) as [idx|] eqn:Hidx.
  2:{ split; [done|]. intros [(s & h & r & i & ? & ? & Hh & Hi & _) _].
      simplify_eq; congruence. }
  set (S := fold_left (entirely_row d idx) rest ∅).
  assert (HS : forall s, s ∈ S <->
    exists h r i line f, Some (header, rest) = Some (h, r) /\
      get_sample_id_column_index (py_split d (py_strip h)) = Some i /\
      line ∈ r /\ skipped_line line = false /\
      py_split d (py_strip line) !! i = Some f /\ py_strip f = s /\ s <> EmptyString).
  { intros s. unfold S. rewrite entirely_rows_elem. split.
    - intros [Hs|(line & f & ?)]; [by apply elem_of_empty in Hs|].
      exists header, rest, idx, line, f. naive_solver.
    - intros (h & r & i & line & f & Hh & Hi & ?). injection Hh as <- <-.
      rewrite Hidx in Hi. injection Hi as <-. right. exists line, f. naive_solver. }
  destruct (bool_decide (S = ∅)) eqn:Hemp.
  - apply bool_decide_eq_true in Hemp. split; [done|].
    intros [[s Hs] _]. assert (s ∈ S) as Hin by (apply HS; exact Hs).
    rewrite Hemp in Hin. by apply elem_of_empty in Hin.
  - apply bool_decide_eq_false in Hemp. rewrite bool_decide_eq_true. split.
    + intros Hsub. split.
      * apply set_choose_L in Hemp as [s Hs]. exists s. by apply HS.
      * intros s Hs. apply Hsub. by apply HS.
    + intros [_ Hall] s Hs. apply Hall. by apply HS.
Qed.

Lemma is_file_entirely_model_iff_witness :
  read_lines (fs_one "f" ["Tumor_Sample_Barcode	x
"; "S2	1
"]) "f"
    = Some ["Tumor_Sample_Barcode	x
"; "S2	1
"] /\
  exists b, is_file_entirely_model (fs_one "f" ["Tumor_Sample_Barcode	x
"; "S2	1
"]) "f" {["S2"]} = Ok b /\
    (b = true <-> (exists s, file_sample_id ["Tumor_Sample_Barcode	x
"; "S2	1
"] s) /\
       (forall s, file_sample_id ["Tumor_Sample_Barcode	x
"; "S2	1
"] s -> s ∈ ({["S2"]} : gset string))).
Proof.
  split; [reflexivity|]. apply is_file_entirely_model_iff. reflexivity.
Defined.

Example entirely_model_cases :
  is_file_entirely_model (fs_one "f" ["Tumor_Sample_Barcode
"; "S2
"; "S9
"]) "f" {["S2"]} = Ok false /\
  is_file_entirely_model (fs_one "f" ["Tumor_Sample_Barcode
"]) "f" {["S2"]} = Ok false.
Proof. split; vm_compute; reflexivity. Qed.

(** ** C7: merging the metadata files *)

Lemma load_sample_metadata_files_fold (fs : fsys) (files : list string) :
  load_sample_metadata_files fs files = fold_left (merge_step fs) files ∅.
Proof. reflexivity. Qed.

Lemma merge_steps_untouched (fs : fsys) (post : list string) (k : string)
    (acc : gmap string bool) :
  (forall g m', g ∈ post -> _parse_metadata_file fs g = Ok m' -> m' !! k = None) ->
  fold_left (merge_step fs) post acc !! k = acc !! k.
Proof.
  revert acc. induction post as [|g post IH]; intros acc Hpost; [done|]. simpl.
  rewrite IH by (intros; apply (Hpost g0); [by right|done]).
  unfold merge_step. destruct (_parse_metadata_file fs g) as [m'|e] eqn:Hg; [|done].
  rewrite lookup_union_r; [done|]. apply (Hpost g); [by left|done].
Qed.

(** C7: a file whose parse raises changes nothing (the result is the one
    of the other files alone), and a sample found by a later file takes
    that file's classification, whatever earlier files said. *)
Theorem load_sample_metadata_files_order (fs : fsys) (pre post : list string)
    (f : string) :
  (forall e, _parse_metadata_file fs f = Err e ->
     load_sample_metadata_files fs (pre ++ f :: post)
       = load_sample_metadata_files fs (pre ++ post)) /\
  (forall (m : gmap string bool) (k : string),
     _parse_metadata_file fs f = Ok m -> is_Some (m !! k) ->
     (forall g m', g ∈ post -> _parse_metadata_file fs g = Ok m' -> m' !! k = None) ->
     load_sample_metadata_files fs (pre ++ f :: post) !! k = m !! k).
Proof.
  rewrite !load_sample_metadata_files_fold, !fold_left_app. simpl. split.
  - intros e Hf. unfold merge_step at 2. by rewrite Hf.
  - intros m k Hf [v Hv] Hpost. rewrite merge_steps_untouched by done.
    unfold merge_step at 1. rewrite Hf, Hv. by apply lookup_union_Some_l.
Qed.

Lemma load_sample_metadata_files_order_witness :
  _parse_metadata_file meta_fs "gone.tsv" = Err (OSError "gone.tsv") /\
  load_sample_metadata_files meta_fs (["a.tsv"] ++ "gone.tsv" :: ["b.tsv"])
    = load_sample_metadata_files meta_fs (["a.tsv"] ++ ["b.tsv"]) /\
  _parse_metadata_file meta_fs "b.tsv" = Ok (<["S1" := false]> ∅) /\
  load_sample_metadata_files meta_fs (["a.tsv"] ++ "b.tsv" :: []) !! "S1"
    = (<["S1" := false]> ∅ : gmap string bool) !! "S1".
Proof.
  assert (Hg : _parse_metadata_file meta_fs "gone.tsv" = Err (OSError "gone.tsv"))
    by reflexivity.
  assert (Hb : _parse_metadata_file meta_fs "b.tsv" = Ok (<["S1" := false]> ∅))
    by (vm_compute; reflexivity).
  split; [exact Hg|]. split.
  { exact (proj1 (load_sample_metadata_files_order meta_fs ["a.tsv"] ["b.tsv"] "gone.tsv") _ Hg). }
  split; [exact Hb|].
  apply (proj2 (load_sample_metadata_files_order meta_fs ["a.tsv"] [] "b.tsv") _ _ Hb).
  - rewrite lookup_insert_eq. eexists; reflexivity.
  - intros g m' Hin. by apply elem_of_nil in Hin.
Defined.

Example load_later_wins :
  load_sample_metadata_files meta_fs ["a.tsv"; "b.tsv"] !! "S1" = Some false /\
  load_sample_metadata_files meta_fs ["b.tsv"; "a.tsv"] !! "S1" = Some true.
Proof. split; vm_compute; reflexivity. Qed.

(** ** Duplicate studies in a merge run *)

Lemma study_uid_of_pair (f g : string) :
  study_center f = study_center g -> study_uid f = study_uid g.
Proof.
  unfold study_center, study_uid.
  destruct (extract_study_info f) as [[? ?] ?], (extract_study_info g) as [[? ?] ?].
  by intros [= -> ->].
Qed.

Lemma process_mutation_file_eq (fs : fsys) (f : string) (ms seen : gset string)
    (inc : bool) :
  process_mutation_file fs f ms seen inc =
    if bool_decide (study_uid f ∈ seen) then (Ok [], seen)
    else (process_after_dedup fs f ms inc (proj_of f), {[study_uid f]} ∪ seen).
Proof.
  unfold process_mutation_file, study_uid, proj_of.
  by destruct (extract_study_info f) as [[p s] c].
Qed.

Lemma seen_before_cons (seen : gset string) (f : string) (rest : list string)
    (j : nat) (x : string) :
  x ∈ seen_before seen (f :: rest) (S j) <->
  x ∈ seen_before ({[study_uid f]} ∪ seen) rest j.
Proof. unfold seen_before. simpl. set_solver. Qed.

(** Each call of the loop either hits the duplicate check (key already
    seen: [[]]) or returns what the rest of [process_mutation_file]
    returns. *)
Lemma process_files_nth (fs : fsys) (ms : gset string) (inc : bool) (files : list string) :
  forall (seen : gset string) (outs : list (list string)),
  process_files fs ms inc seen files = Ok outs ->
  length outs = length files /\
  forall j f, files !! j = Some f -> exists o, outs !! j = Some o /\
    (study_uid f ∈ seen_before seen files j -> o = []) /\
    (study_uid f ∉ seen_before seen files j ->
       process_after_dedup fs f ms inc (proj_of f) = Ok o).
Proof.
  induction files as [|f rest IH]; intros seen outs H.
  - simpl in H. injection H as <-. split; [done|]. intros j f Hj. by rewrite lookup_nil in Hj.
  - simpl in H. rewrite process_mutation_file_eq in H.
    destruct (bool_decide_reflect (study_uid f ∈ seen)) as [Hin|Hnin].
    + simpl in H. destruct (process_files fs ms inc seen rest) as [outs'|e] eqn:Hr;
        simpl in H; [|discriminate]. injection H as <-.
      destruct (IH _ _ Hr) as [Hlen Hnth]. split; [simpl; by rewrite Hlen|].
      intros [|j] g Hj; simpl in Hj.
      * injection Hj as <-. exists []. split; [done|]. split; [done|].
        intros Hn. exfalso. apply Hn. unfold seen_before. set_solver.
      * destruct (Hnth j g Hj) as (o & Ho & H1 & H2). exists o. split; [done|].
        assert (Hiff : forall x, x ∈ seen_before seen (f :: rest) (S j) <->
                                 x ∈ seen_before seen rest j).
        { intros x. rewrite seen_before_cons. unfold seen_before. set_solver. }
        rewrite !Hiff. done.
    + simpl in H. destruct (process_after_dedup fs f ms inc (proj_of f)) as [o0|e] eqn:Hp;
        simpl in H; [|discriminate].
      destruct (process_files fs ms inc ({[study_uid f]} ∪ seen) rest) as [outs'|e] eqn:Hr;
        simpl in H; [|discriminate]. injection H as <-.
      destruct (IH _ _ Hr) as [Hlen Hnth]. split; [simpl; by rewrite Hlen|].
      intros [|j] g Hj; simpl in Hj.
      * injection Hj as <-. exists o0. split; [done|]. split; [|done].
        intros Hs. exfalso. apply Hnin. unfold seen_before in Hs. simpl in Hs. set_solver.
      * destruct (Hnth j g Hj) as (o & Ho & H1 & H2). exists o. split; [done|].
        rewrite !seen_before_cons. done.
Qed.

Lemma seen_before_elem (seen : gset string) (files : list string) (i j : nat)
    (fi : string) :
  i < j -> files !! i = Some fi -> study_uid fi ∈ seen_before seen files j.
Proof.
  intros Hij Hi. unfold seen_before. apply elem_of_union_r.
  apply elem_of_list_to_set, list_elem_of_fmap. exists fi. split; [done|].
  apply list_elem_of_lookup. exists i. by rewrite lookup_take_lt.
Qed.

Lemma seen_before_fresh (files : list string) (i : nat) (fi : string) :
  files !! i = Some fi ->
  (forall i' fi', i' < i -> files !! i' = Some fi' -> study_uid fi' <> study_uid fi) ->
  study_uid fi ∉ seen_before ∅ files i.
Proof.
  intros Hi Hfresh Hin. unfold seen_before in Hin.
  apply elem_of_union in Hin as [Hin|Hin]; [by apply elem_of_empty in Hin|].
  apply elem_of_list_to_set, list_elem_of_fmap in Hin as (fi' & Heq & Hin).
  apply list_elem_of_lookup in Hin as [i' Hi'].
  assert (i' < i).
  { apply lookup_lt_Some in Hi' as Hlt. rewrite length_take in Hlt. lia. }
  rewrite lookup_take_lt in Hi' by done. by apply (Hfresh i' fi').
Qed.

Lemma py_sorted_sorted (files : list string) :
  Sorted String.le (py_sorted files) /\ py_sorted files ≡ₚ files.
Proof. split; [apply Sorted_merge_sort; apply _ | apply merge_sort_Permutation]. Qed.

Lemma study_uid_pair (f : string) :
  study_uid f = (study_center f).1 ++ (study_center f).2.
Proof. unfold study_uid, study_center. by destruct (extract_study_info f) as [[? ?] ?]. Qed.

(** C6 fails for (study, center) pairs: the only file with the pair
    ("ab", "c") is skipped as a duplicate of the pair ("a", "bc"), whose
    key "abc" came first in sorted order, though it has records. *)
Lemma merge_first_pair_skipped_cex :
  py_sorted two_studies = ["x/a_bc/data_mutations.txt"; "x/ab_c/data_mutations.txt"] /\
  study_center "x/a_bc/data_mutations.txt" = ("a", "bc") /\
  study_center "x/ab_c/data_mutations.txt" = ("ab", "c") /\
  process_files two_studies_fs ∅ false ∅ (py_sorted two_studies)
    = Ok [["a_bc	TP53	P1		p.R175H		0"]; []] /\
  process_after_dedup two_studies_fs "x/ab_c/data_mutations.txt" ∅ false "ab_c"
    = Ok ["ab_c	KRAS	P2		p.G12D		0"].
Proof. vm_compute. repeat split. Qed.

(** C6 (as the code does it): files run in sorted path order; a file
    whose key [study + center] is new is processed past the duplicate
    check, every later file with the same key yields [[]], so two files
    with the same (study, center) pair never both contribute records. *)
Theorem merge_one_file_per_key (fs : fsys) (ms : gset string) (inc : bool)
    (files : list string) (outs : list (list string))
    (H : process_files fs ms inc ∅ (py_sorted files) = Ok outs) :
  merge_mutation_files fs ms inc files = Ok (concat outs) /\
  Sorted String.le (py_sorted files) /\ py_sorted files ≡ₚ files /\
  length outs = length (py_sorted files) /\
  (forall i fi, py_sorted files !! i = Some fi ->
     (forall i' fi', i' < i -> py_sorted files !! i' = Some fi' ->
        study_uid fi' <> study_uid fi) ->
     exists o, outs !! i = Some o /\ process_after_dedup fs fi ms inc (proj_of fi) = Ok o) /\
  (forall i j fi fj, i < j -> py_sorted files !! i = Some fi ->
     py_sorted files !! j = Some fj -> study_uid fi = study_uid fj ->
     outs !! j = Some []) /\
  (forall i j fi fj, i <> j -> py_sorted files !! i = Some fi ->
     py_sorted files !! j = Some fj -> study_center fi = study_center fj ->
     outs !! i = Some [] \/ outs !! j = Some []).
Proof.
  destruct (process_files_nth fs ms inc _ ∅ outs H) as [Hlen Hnth].
  destruct (py_sorted_sorted files) as [Hsort Hperm].
  assert (Hlater : forall i j fi fj, i < j -> py_sorted files !! i = Some fi ->
     py_sorted files !! j = Some fj -> study_uid fi = study_uid fj ->
     outs !! j = Some []).
  { intros i j fi fj Hij Hi Hj Hu. destruct (Hnth j fj Hj) as (o & Ho & H1 & _).
    rewrite Ho, H1; [done|]. rewrite <- Hu. by apply (seen_before_elem _ _ i). }
  split; [unfold merge_mutation_files; by rewrite H|].
  split; [done|]. split; [done|]. split; [done|]. split; [|split; [done|]].
  - intros i fi Hi Hfresh. destruct (Hnth i fi Hi) as (o & Ho & _ & H2).
    exists o. split; [done|]. apply H2. by apply seen_before_fresh.
  - intros i j fi fj Hij Hi Hj Hp. apply study_uid_of_pair in Hp.
    destruct (proj1 (Nat.lt_gt_cases i j) Hij) as [Hlt|Hlt].
    + right. by apply (Hlater i j fi fj).
    + left. by apply (Hlater j i fj fi).
Qed.

Lemma merge_one_file_per_key_witness :
  process_files two_studies_fs ∅ false ∅ (py_sorted two_studies)
    = Ok [["a_bc	TP53	P1		p.R175H		0"]; []] /\
  merge_mutation_files two_studies_fs ∅ false two_studies
    = Ok (concat [["a_bc	TP53	P1		p.R175H		0"]; []]).
Proof.
  assert (H : process_files two_studies_fs ∅ false ∅ (py_sorted two_studies)
                = Ok [["a_bc	TP53	P1		p.R175H		0"]; []])
    by (vm_compute; reflexivity).
  split; [exact H|]. exact (proj1 (merge_one_file_per_key _ _ _ _ _ H)).
Defined.

(** C9: the duplicate key is [study + center] with no separator: of two
    files whose concatenations coincide, the later in the loop yields no
    records, even when their (study, center) pairs differ. *)
Theorem merge_concat_key_collision (fs : fsys) (ms : gset string) (inc : bool)
    (files : list string) (outs : list (list string)) (i j : nat) (fi fj : string)
    (H : process_files fs ms inc ∅ (py_sorted files) = Ok outs)
    (Hij : i < j) (Hi : py_sorted files !! i = Some fi)
    (Hj : py_sorted files !! j = Some fj)
    (Hkey : (study_center fi).1 ++ (study_center fi).2
            = (study_center fj).1 ++ (study_center fj).2) :
  outs !! j = Some [].
Proof.
  destruct (process_files_nth fs ms inc _ ∅ outs H) as [_ Hnth].
  destruct (Hnth j fj Hj) as (o & Ho & H1 & _). rewrite Ho, H1; [done|].
  rewrite study_uid_pair, <- Hkey, <- study_uid_pair.
  by apply (seen_before_elem _ _ i).
Qed.

Lemma merge_concat_key_collision_witness :
  study_center "x/a_bc/data_mutations.txt" <> study_center "x/ab_c/data_mutations.txt" /\
  py_sorted two_studies = ["x/a_bc/data_mutations.txt"; "x/ab_c/data_mutations.txt"] /\
  [["a_bc	TP53	P1		p.R175H		0"]; []] !! 1 = Some ([] : list string).
Proof.
  assert (Hs : py_sorted two_studies
               = ["x/a_bc/data_mutations.txt"; "x/ab_c/data_mutations.txt"])
    by (vm_compute; reflexivity).
  split; [vm_compute; discriminate|]. split; [exact Hs|].
  apply (merge_concat_key_collision two_studies_fs ∅ false two_studies
           _ 0 1 "x/a_bc/data_mutations.txt" "x/ab_c/data_mutations.txt").
  - vm_compute. reflexivity.
  - lia.
  - rewrite Hs. reflexivity.
  - rewrite Hs. reflexivity.
  - vm_compute. reflexivity.
Defined.

(** ** C10: a skipped file still claims its key *)

(** C10: [seen_uids.add(uid)] runs before the path check and the
    whole-file check, so a file skipped by either yields [[]] yet leaves
    its key in [seen_uids], and a later file with the same key yields [[]]
    at the duplicate check. *)
Theorem skipped_file_claims_key (fs : fsys) (ms seen : gset string) (inc : bool)
    (f g : string)
    (Hnew : study_uid f ∉ seen) (Hsame : study_uid g = study_uid f)
    (Hskip : inc = false /\
             (is_model_study_path f = true \/
              (ms <> ∅ /\ is_file_entirely_model fs f ms = Ok true))) :
  process_mutation_file fs f ms seen inc = (Ok [], {[study_uid f]} ∪ seen) /\
  process_mutation_file fs g ms ({[study_uid f]} ∪ seen) inc
    = (Ok [], {[study_uid f]} ∪ seen).
Proof.
  destruct Hskip as [-> Hskip]. rewrite !process_mutation_file_eq.
  rewrite bool_decide_eq_false_2 by done.
  rewrite (bool_decide_eq_true_2 (study_uid g ∈ {[study_uid f]} ∪ seen))
    by (rewrite Hsame; set_solver).
  split; [|done]. f_equal. unfold process_after_dedup. simpl.
  destruct Hskip as [-> | [Hms Hent]]; [done|].
  destruct (is_model_study_path f); [done|].
  rewrite bool_decide_eq_false_2 by done. simpl. by rewrite Hent.
Qed.

Lemma skipped_file_claims_key_witness :
  study_uid "a-test/brca_tcga/data_mutations.txt" = "brcatcga" /\
  study_uid "b/brca_tcga/data_mutations.txt" = "brcatcga" /\
  is_model_study_path "a-test/brca_tcga/data_mutations.txt" = true /\
  process_mutation_file claimed_fs "b/brca_tcga/data_mutations.txt" ∅
    ({["brcatcga"]} ∪ ∅) false = (Ok [], {["brcatcga"]} ∪ ∅).
Proof.
  split; [reflexivity|]. split; [reflexivity|]. split; [vm_compute; reflexivity|].
  refine (proj2 (skipped_file_claims_key claimed_fs ∅ ∅ false
                   "a-test/brca_tcga/data_mutations.txt"
                   "b/brca_tcga/data_mutations.txt" _ _ _)).
  - vm_compute. set_solver.
  - reflexivity.
  - split; [reflexivity|]. left. vm_compute. reflexivity.
Defined.

Example skipped_file_claims_key_run :
  process_files claimed_fs ∅ false ∅
    (py_sorted ["b/brca_tcga/data_mutations.txt"; "a-test/brca_tcga/data_mutations.txt"])
    = Ok [[]; []] /\
  process_files claimed_fs ∅ false ∅ ["b/brca_tcga/data_mutations.txt"]
    = Ok [["brca_tcga	TP53	P1		p.R175H		0"]].
Proof. split; vm_compute; reflexivity. Qed.

(** ** C1: exceptions during a file's processing *)

(** C1 fails: [_detect_delimiter] (and [is_file_entirely_model]) run
    before the [try] block, so an unreadable file makes
    [process_mutation_file] raise, and the run ends. *)
Theorem process_mutation_file_raises :
  process_mutation_file dangling_fs "d/st_ce/data_mutations.txt" ∅ ∅ false
    = (Err (OSError "d/st_ce/data_mutations.txt"), {["stce"]}) /\
  process_mutation_file dangling_fs "d/st_ce/data_mutations.txt" {["S1"]} ∅ false
    = (Err (OSError "d/st_ce/data_mutations.txt"), {["stce"]}) /\
  merge_mutation_files (fs_one "a/x_y/data_mutations.txt" maf_lines) ∅ false
    ["a/x_y/data_mutations.txt"; "d/st_ce/data_mutations.txt"]
    = Err (OSError "d/st_ce/data_mutations.txt").
Proof. split; [|split]; vm_compute; reflexivity. Qed.
(** ** C5: the sample classifier *)

Lemma py_lower_app (a b : string) : py_lower (a ++ b) = py_lower a ++ py_lower b.
Proof. induction a as [|c a IH]; [done|]. rewrite sapp_cons. simpl. by rewrite IH. Qed.

Lemma lower_char_word (c : ascii) : is_word_char (lower_char c) = is_word_char c.
Proof. destruct c as [[] [] [] [] [] [] [] []]; vm_compute; reflexivity. Qed.

Lemma last_of_lower (p : option ascii) (a : string) :
  last_of (option_map lower_char p) (py_lower a) = option_map lower_char (last_of p a).
Proof.
  revert p. induction a as [|c a IH]; intros p; [done|]. simpl.
  by rewrite <- (IH (Some c)).
Qed.

Lemma word_after_lower (b : string) : word_after (py_lower b) = word_after b.
Proof. destruct b; [done|]. apply lower_char_word. Qed.

Lemma last_of_app (p : option ascii) (a b : string) :
  last_of p (a ++ b) = last_of (last_of p a) b.
Proof. revert p. induction a as [|c a IH]; intros p; [done|]. apply IH. Qed.

Lemma last_of_nonempty (p q : option ascii) (s : string) :
  s <> EmptyString -> last_of p s = last_of q s.
Proof. destruct s as [|c s]; [done|]. reflexivity. Qed.

Lemma lstrip_app (a x : string) :
  starts_nonspace x = true -> py_lstrip (a ++ x) = py_lstrip a ++ x.
Proof.
  intros Hx. induction a as [|c a IH].
  - destruct x as [|c x]; [done|]. simpl in *. apply negb_true_iff in Hx. by rewrite Hx.
  - rewrite sapp_cons. simpl. by destruct (py_isspace c).
Qed.

Lemma lstrip_suffix (s : string) : exists p, s = p ++ py_lstrip s.
Proof.
  induction s as [|c s [p Hp]]; [by exists EmptyString|]. simpl.
  destruct (py_isspace c).
  - exists (String c p). rewrite sapp_cons. by rewrite <- Hp.
  - by exists EmptyString.
Qed.

Lemma rstrip_app (y b : string) :
  ends_nonspace y = true -> py_rstrip (y ++ b) = y ++ py_rstrip b.
Proof.
  induction y as [|c y IH]; [done|]. intros Hy. rewrite sapp_cons. simpl.
  destruct y as [|c' y'].
  - unfold ends_nonspace in Hy. simpl in Hy. apply negb_true_iff in Hy.
    rewrite sapp_nil. destruct (py_rstrip b); [by rewrite Hy|done].
  - rewrite IH; [by rewrite sapp_cons|]. done.
Qed.

Lemma word_after_rstrip (s : string) :
  word_after s = false -> word_after (py_rstrip s) = false.
Proof.
  destruct s as [|c s]; [done|]. simpl. intros Hc.
  destruct (py_rstrip s); [|done]. by destruct (py_isspace c).
Qed.

Lemma search_from_app (prev : option ascii) (a x : string) (p : list ratom) :
  match_at (last_of prev a) x p = true -> search_from prev (a ++ x) p = true.
Proof.
  revert prev. induction a as [|c a IH]; intros prev H.
  - simpl in H. rewrite sapp_nil. destruct x; simpl; by rewrite H.
  - rewrite sapp_cons. simpl. rewrite IH by done. apply orb_true_r.
Qed.

(** The classifier finds a pattern that matches where [w] stands in the
    stripped, lower-cased value. *)
Lemma is_model_sample_at (a w b : string) (pat : list ratom) :
  pat ∈ MODEL_TYPE_PATTERNS ->
  starts_nonspace (py_lower w) = true -> ends_nonspace (py_lower w) = true ->
  match_at (last_of None (py_lstrip (py_lower a)))
    (py_lower w ++ py_rstrip (py_lower b)) pat = true ->
  is_model_sample (Some (a ++ w ++ b)) = true.
Proof.
  intros Hpat Hs He Hm. unfold is_model_sample.
  assert (Hne : nonempty (a ++ w ++ b) = true).
  { destruct a; [|done]. rewrite sapp_nil. destruct w; [done|]. done. }
  rewrite Hne. cbn [negb]. unfold py_strip. rewrite !py_lower_app.
  rewrite lstrip_app.
  2:{ destruct (py_lower w); [done|]. simpl in *. done. }
  rewrite <- sapp_assoc, rstrip_app.
  2:{ unfold ends_nonspace in *. rewrite last_of_app.
      rewrite (last_of_nonempty _ None); [done|]. by destruct (py_lower w). }
  apply existsb_exists. exists pat. split; [by apply list_elem_of_In|].
  unfold re_search. rewrite sapp_assoc. by apply search_from_app.
Qed.

Lemma boundary_before (a : string) :
  word_before (last_of None a) = false ->
  word_before (last_of None (py_lstrip (py_lower a))) = false.
Proof.
  intros Ha. destruct (lstrip_suffix (py_lower a)) as [p Hp].
  assert (Hlast : last_of None (py_lower a)
                  = last_of (last_of None p) (py_lstrip (py_lower a))).
  { rewrite <- last_of_app. by rewrite <- Hp. }
  change (@None ascii) with (option_map lower_char None) in Hlast at 1.
  rewrite last_of_lower in Hlast.
  destruct (py_lstrip (py_lower a)) as [|c s]; [done|].
  change (last_of None (String c s)) with (last_of (last_of None p) (String c s)).
  rewrite <- Hlast. destruct (last_of None a); [|done]. simpl in *.
  by rewrite lower_char_word.
Qed.

Ltac model_pattern_in :=
  apply list_elem_of_In; unfold MODEL_TYPE_PATTERNS;
  repeat (first [left; reflexivity | right]).

Ltac split_terms H :=
  repeat (apply elem_of_cons in H as [H|H]); [..|by apply elem_of_nil in H].

(** C5 (as the code does it): a value whose lower-cased form contains
    "cell line", "cell-line", "cell_line", "cellline", "in vitro",
    "in-vitro" or "invitro" anywhere, or "pdx", "xenograft", "model" or
    "ccle" as a whole word, is a model sample; "Patient", "Primary Tumor",
    "Metastatic", "Normal", "Tumor", "" and [None] are not; "model" does
    not match inside "modeling", but the cell-line and in-vitro patterns
    have no word boundaries and match inside "invitrogen" and "cell lineage". *)
Theorem is_model_sample_terms :
  (forall a w b, py_lower w ∈ unbounded_model_terms ->
     is_model_sample (Some (a ++ w ++ b)) = true) /\
  (forall a w b, py_lower w ∈ bounded_model_terms ->
     word_before (last_of None a) = false -> word_after b = false ->
     is_model_sample (Some (a ++ w ++ b)) = true) /\
  is_model_sample (Some "Patient") = false /\
  is_model_sample (Some "Primary Tumor") = false /\
  is_model_sample (Some "Metastatic") = false /\
  is_model_sample (Some "Normal") = false /\
  is_model_sample (Some "Tumor") = false /\
  is_model_sample (Some EmptyString) = false /\
  is_model_sample None = false /\
  is_model_sample (Some "modeling") = false /\
  is_model_sample (Some "invitrogen") = true /\
  is_model_sample (Some "cell lineage") = true.
Proof.
  split; [|split].
  - intros a w b Hw. split_terms Hw.
    1-4: apply (is_model_sample_at a w b
                 (lit "cell" ++ [ROpt ["-"%char; " "%char; "_"%char]] ++ lit "line")%list);
      [model_pattern_in | rewrite Hw; reflexivity | rewrite Hw; reflexivity
      | rewrite Hw, !sapp_cons, sapp_nil; simpl; reflexivity].
    all: apply (is_model_sample_at a w b
                 (lit "in" ++ [ROpt hyphen_space] ++ lit "vitro")%list);
      [model_pattern_in | rewrite Hw; reflexivity | rewrite Hw; reflexivity
      | rewrite Hw, !sapp_cons, sapp_nil; simpl; reflexivity].
  - intros a w b Hw Ha Hb.
    apply boundary_before in Ha.
    assert (Hb' : word_after (py_rstrip (py_lower b)) = false)
      by (apply word_after_rstrip; by rewrite word_after_lower).
    split_terms Hw;
      [apply (is_model_sample_at a w b (bounded "pdx"))
      |apply (is_model_sample_at a w b (bounded "xenograft"))
      |apply (is_model_sample_at a w b (bounded "model"))
      |apply (is_model_sample_at a w b (bounded "ccle"))];
      first [model_pattern_in | rewrite Hw; reflexivity | idtac];
      (rewrite Hw, !sapp_cons, sapp_nil; simpl;
       unfold at_boundary; rewrite Ha, Hb'; reflexivity).
  - repeat split; vm_compute; reflexivity.
Qed.

(** C5 fails: "invitrogen" and "cell lineage" contain none of the terms
    as a word, yet the classifier returns true. *)
Lemma is_model_sample_unbounded_cex :
  is_model_sample (Some "invitrogen") = true /\
  existsb (fun p => re_search p "invitrogen") claimed_word_patterns = false /\
  is_model_sample (Some "cell lineage") = true /\
  existsb (fun p => re_search p "cell lineage") claimed_word_patterns = false.
Proof. vm_compute. repeat split. Qed.

Lemma is_model_sample_terms_witness :
  is_model_sample (Some ("Tumor " ++ "PDX" ++ ", passage 3")) = true /\
  is_model_sample (Some ("Human " ++ "Cell-Line" ++ "s")) = true.
Proof.
  split.
  - apply (proj1 (proj2 is_model_sample_terms)).
    + apply elem_of_cons. left. vm_compute. reflexivity.
    + vm_compute. reflexivity.
    + vm_compute. reflexivity.
  - apply (proj1 is_model_sample_terms).
    apply elem_of_cons. right. apply elem_of_cons. left. vm_compute. reflexivity.
Defined.

(* ================================================================== *)
(** * Properties of the other functions *)

Lemma _find_column_index_nil (hs : list string) : _find_column_index hs [] = None.
Proof. reflexivity. Qed.

Lemma _find_column_index_cons (hs : list string) (p : string) (ps : list string) :
  _find_column_index hs (p :: ps) =
    match index_from 0 (py_lower p) (map (fun h => py_strip (py_lower h)) hs) with
    | Some i => Some i
    | None => _find_column_index hs ps
    end.
Proof. reflexivity. Qed.

Lemma index_from_Some (k : nat) (x : string) (hs : list string) (i : nat) :
  index_from k x hs = Some i <->
  exists j, i = k + j /\ hs !! j = Some x /\ forall j', j' < j -> hs !! j' <> Some x.
Proof.
  revert k. induction hs as [|h hs IH]; intros k; simpl.
  - split; [done|]. intros (j & _ & Hj & _). by rewrite lookup_nil in Hj.
  - destruct (String.eqb_spec h x) as [->|Hne].
    + split.
      * intros [= <-]. exists 0. split; [lia|]. split; [done|]. intros; lia.
      * intros (j & -> & Hj & Hfirst). destruct j as [|j]; [f_equal; lia|].
        exfalso. by apply (Hfirst 0); [lia|].
    + rewrite IH. split.
      * intros (j & -> & Hj & Hfirst). exists (S j). split; [lia|]. split; [done|].
        intros [|j'] Hj'; simpl; [congruence|]. apply Hfirst. lia.
      * intros (j & -> & Hj & Hfirst). destruct j as [|j]; [simpl in Hj; congruence|].
        exists j. split; [lia|]. split; [done|]. intros j' Hj'. apply (Hfirst (S j')). lia.
Qed.

Lemma index_from_None (k : nat) (x : string) (hs : list string) :
  index_from k x hs = None <-> x ∉ hs.
Proof.
  revert k. induction hs as [|h hs IH]; intros k; simpl.
  - split; [intros _; apply not_elem_of_nil|done].
  - rewrite elem_of_cons. destruct (String.eqb_spec h x) as [->|Hne].
    + split; [done|]. intros H. exfalso. apply H. by left.
    + rewrite IH. split; [intros H [->|Hin]; [done|by apply H]|intros H Hin; apply H; by right].
Qed.

(** X1 ([_find_column_index]): no column is found exactly when no header,
    lower-cased and stripped, equals any of the patterns lower-cased. *)
Theorem _find_column_index_None (headers column_patterns : list string) :
  _find_column_index headers column_patterns = None <->
  forall pattern header, pattern ∈ column_patterns -> header ∈ headers ->
    py_strip (py_lower header) <> py_lower pattern.
Proof.
  induction column_patterns as [|p ps IH].
  - split; [intros _ q h Hq; by apply elem_of_nil in Hq|done].
  - rewrite _find_column_index_cons.
    destruct (index_from 0 (py_lower p) _) as [i|] eqn:Hi.
    + split; [done|]. intros H. exfalso.
      apply index_from_Some in Hi as (j & _ & Hj & _).
      apply list_lookup_fmap_Some_1 in Hj as (h & Heq & Hh).
      apply (H p h); [by left|by eapply list_elem_of_lookup_2|done].
    + apply index_from_None in Hi. rewrite IH. split.
      * intros H q h Hq Hh. apply elem_of_cons in Hq as [->|Hq]; [|by apply H].
        intros Heq. apply Hi. apply list_elem_of_fmap. by exists h.
      * intros H q h Hq Hh. apply H; [by right|done].
Qed.

(** X2 ([_find_column_index]): the index returned belongs to the first
    pattern (in list order) that some header matches, lower-cased and
    stripped, and is the first header matching that pattern; the order of
    the patterns outranks the order of the columns. *)
Theorem _find_column_index_Some (headers column_patterns : list string) (i : nat) :
  _find_column_index headers column_patterns = Some i <->
  exists pre pattern post header,
    column_patterns = (pre ++ pattern :: post)%list /\
    (forall q h, q ∈ pre -> h ∈ headers -> py_strip (py_lower h) <> py_lower q) /\
    headers !! i = Some header /\ py_strip (py_lower header) = py_lower pattern /\
    (forall j h, j < i -> headers !! j = Some h -> py_strip (py_lower h) <> py_lower pattern).
Proof.
  induction column_patterns as [|p ps IH].
  - split; [done|]. intros (pre & q & post & _ & Hps & _). by destruct pre.
  - rewrite _find_column_index_cons.
    destruct (index_from 0 (py_lower p) _) as [k|] eqn:Hk.
    + apply index_from_Some in Hk as (j & -> & Hj & Hfirst). simpl.
      apply list_lookup_fmap_Some_1 in Hj as (h & Heq & Hh). split.
      * intros [= <-]. exists [], p, ps, h. split; [done|]. split.
        { intros q h' Hq. by apply elem_of_nil in Hq. }
        split; [done|]. split; [done|]. intros j' h' Hj' Hh' Heq'.
        apply (Hfirst j'); [done|]. rewrite list_lookup_fmap, Hh'. simpl. by rewrite Heq'.
      * intros (pre & q & post & h' & Hps & Hpre & Hh' & Heq' & Hfirst').
        destruct pre as [|q0 pre]; simpl in Hps; injection Hps as Hq Hpost.
        { subst q. f_equal. destruct (Nat.lt_trichotomy i j) as [Hlt|[->|Hgt]]; [|done|].
          - exfalso. apply (Hfirst i); [done|]. rewrite list_lookup_fmap, Hh'. simpl.
            by rewrite Heq'.
          - exfalso. by apply (Hfirst' j h). }
        subst q0. exfalso. apply (Hpre p h); [by left|by eapply list_elem_of_lookup_2|done].
    + apply index_from_None in Hk. rewrite IH. split.
      * intros (pre & q & post & h & -> & Hpre & Hh & Heq & Hfirst).
        exists (p :: pre), q, post, h. split; [done|]. split; [|done].
        intros q' h' Hq' Hh'. apply elem_of_cons in Hq' as [->|Hq']; [|by apply Hpre].
        intros Heq'. apply Hk. apply list_elem_of_fmap. by exists h'.
      * intros (pre & q & post & h & Hps & Hpre & Hh & Heq & Hfirst).
        destruct pre as [|q0 pre]; simpl in Hps; injection Hps as Hq Hps.
        { subst q. exfalso. apply Hk. apply list_elem_of_fmap. exists h.
          split; [done|]. by eapply list_elem_of_lookup_2. }
        exists pre, q, post, h. split; [done|]. split; [|done].
        intros q' h' Hq' Hh'. apply Hpre; [by right|done].
Qed.

(** ** Case and surrounding white space in the classifier *)

Lemma isspace_lower_char (c : ascii) : py_isspace (lower_char c) = py_isspace c.
Proof. destruct c as [[] [] [] [] [] [] [] []]; vm_compute; reflexivity. Qed.

Lemma lower_char_idem (c : ascii) : lower_char (lower_char c) = lower_char c.
Proof. destruct c as [[] [] [] [] [] [] [] []]; vm_compute; reflexivity. Qed.

Lemma py_lower_idem (s : string) : py_lower (py_lower s) = py_lower s.
Proof. induction s as [|c s IH]; [done|]. simpl. by rewrite lower_char_idem, IH. Qed.

Lemma py_lower_lstrip (s : string) : py_lower (py_lstrip s) = py_lstrip (py_lower s).
Proof.
  induction s as [|c s IH]; [done|]. simpl. rewrite isspace_lower_char.
  by destruct (py_isspace c).
Qed.

Lemma py_lower_empty (s : string) : py_lower s = EmptyString <-> s = EmptyString.
Proof. destruct s; simpl; done. Qed.

Lemma py_lower_rstrip (s : string) : py_lower (py_rstrip s) = py_rstrip (py_lower s).
Proof.
  induction s as [|c s IH]; [done|]. simpl. rewrite <- IH, isspace_lower_char.
  destruct (py_rstrip s); simpl; [by destruct (py_isspace c)|done].
Qed.

Lemma py_lower_strip (s : string) : py_lower (py_strip s) = py_strip (py_lower s).
Proof. unfold py_strip. by rewrite py_lower_rstrip, py_lower_lstrip. Qed.

Lemma py_rstrip_cons (c : ascii) (s : string) :
  py_rstrip (String c s) =
    match py_rstrip s with
    | EmptyString => if py_isspace c then EmptyString else String c EmptyString
    | _ => String c (py_rstrip s)
    end.
Proof. reflexivity. Qed.

Lemma py_rstrip_idem (s : string) : py_rstrip (py_rstrip s) = py_rstrip s.
Proof.
  induction s as [|c s IH]; [done|]. rewrite py_rstrip_cons.
  destruct (py_rstrip s) as [|c' r] eqn:Hr.
  - destruct (py_isspace c) eqn:Hc; [done|]. simpl. by rewrite Hc.
  - rewrite py_rstrip_cons, IH. done.
Qed.

Lemma py_lstrip_form (s : string) :
  py_lstrip s = EmptyString \/ starts_nonspace (py_lstrip s) = true.
Proof.
  induction s as [|c s IH]; [by left|]. simpl.
  destruct (py_isspace c) eqn:Hc; [done|]. right. simpl. by rewrite Hc.
Qed.

Lemma py_lstrip_rstrip_nonspace (x : string) :
  x = EmptyString \/ starts_nonspace x = true -> py_lstrip (py_rstrip x) = py_rstrip x.
Proof.
  intros [->|Hx]; [done|]. destruct x as [|c s]; [done|]. simpl in Hx.
  apply negb_true_iff in Hx. simpl.
  destruct (py_rstrip s); [rewrite Hx; simpl; by rewrite Hx|simpl; by rewrite Hx].
Qed.

Lemma py_strip_idem (s : string) : py_strip (py_strip s) = py_strip s.
Proof.
  unfold py_strip. rewrite py_lstrip_rstrip_nonspace by apply py_lstrip_form.
  apply py_rstrip_idem.
Qed.

Lemma model_patterns_empty :
  existsb (fun pattern => re_search pattern EmptyString) MODEL_TYPE_PATTERNS = false.
Proof. vm_compute. reflexivity. Qed.

(** X3 ([is_model_sample]): the classification of a value does not depend
    on its letter case or on white space around it. *)
Theorem is_model_sample_case_space (v : string) :
  is_model_sample (Some (py_lower v)) = is_model_sample (Some v) /\
  is_model_sample (Some (py_strip v)) = is_model_sample (Some v).
Proof.
  split.
  - unfold is_model_sample. rewrite py_lower_idem.
    by destruct v.
  - unfold is_model_sample. rewrite <- !py_lower_strip, py_strip_idem.
    destruct (py_strip v) as [|c s] eqn:Hs.
    + cbn [nonempty negb]. destruct v as [|c v]; [done|]. cbn [nonempty negb].
      symmetry. apply model_patterns_empty.
    + destruct v as [|c' v]; [done|]. reflexivity.
Qed.

Lemma metadata_row_entry (d : ascii) (si ti : nat) (m : gmap string bool) (line : string) :
  metadata_row d si ti m line =
    match metadata_entry d si ti line with
    | Some (k, b) => <[k := b]> m
    | None => m
    end.
Proof.
  unfold metadata_row, metadata_entry.
  destruct (skipped_line line); [done|].
  destruct (length _ <=? _); [done|].
  destruct (py_split d (py_strip line) !! si), (py_split d (py_strip line) !! ti); try done.
  by destruct (nonempty _).
Qed.

Lemma metadata_rows_untouched (d : ascii) (si ti : nat) (k : string)
    (rows : list string) (m : gmap string bool) :
  Forall (fun l => metadata_key d si ti l <> Some k) rows ->
  fold_left (metadata_row d si ti) rows m !! k = m !! k.
Proof.
  revert m. induction rows as [|l rows IH]; intros m Hrows; [done|].
  inversion Hrows as [|? ? Hl Hrest]; subst. simpl. rewrite IH by done.
  rewrite metadata_row_entry. unfold metadata_key in Hl.
  destruct (metadata_entry d si ti l) as [[k' b]|]; [|done]. simpl in Hl.
  rewrite lookup_insert_ne; [done|congruence].
Qed.

Lemma metadata_rows_none (d : ascii) (si ti : nat) (k : string)
    (rows : list string) (m : gmap string bool) :
  fold_left (metadata_row d si ti) rows m !! k = None ->
  m !! k = None /\ Forall (fun l => metadata_key d si ti l <> Some k) rows.
Proof.
  revert m. induction rows as [|l rows IH]; intros m Hm; [done|].
  simpl in Hm. apply IH in Hm as [Hstep Hrows].
  rewrite metadata_row_entry in Hstep.
  destruct (metadata_entry d si ti l) as [[k' b]|] eqn:He.
  - destruct (String.eqb_spec k' k) as [->|Hne].
    + by rewrite lookup_insert_eq in Hstep.
    + rewrite lookup_insert_ne in Hstep by done. split; [done|].
      constructor; [|done]. unfold metadata_key. rewrite He. cbn. congruence.
  - split; [done|]. constructor; [|done]. unfold metadata_key. by rewrite He.
Qed.

Lemma metadata_rows_last (d : ascii) (si ti : nat) (k : string) (b : bool)
    (r1 : list string) (l : string) (r2 : list string) (m : gmap string bool) :
  metadata_entry d si ti l = Some (k, b) ->
  Forall (fun l' => metadata_key d si ti l' <> Some k) r2 ->
  fold_left (metadata_row d si ti) (r1 ++ l :: r2) m !! k = Some b.
Proof.
  intros Hl Hr2. rewrite fold_left_app. simpl.
  rewrite metadata_rows_untouched by done. rewrite metadata_row_entry, Hl.
  apply lookup_insert_eq.
Qed.

Lemma _parse_metadata_file_layout (fs : fsys) (file_path : string)
    (cs : list string) (header : string) (rest : list string) (si ti : nat) :
  read_lines fs file_path = Some (cs ++ header :: rest)%list ->
  Forall (fun c => starts_with_hash c = true) cs ->
  starts_with_hash header = false ->
  nonempty (py_strip header) = true ->
  let d := detect_delimiter_lines (cs ++ header :: rest) in
  _find_column_index (py_split d (py_strip header)) SAMPLE_ID_COLUMNS = Some si ->
  _find_column_index (py_split d (py_strip header)) SAMPLE_TYPE_COLUMNS = Some ti ->
  _parse_metadata_file fs file_path = Ok (fold_left (metadata_row d si ti) rest ∅).
Proof.
  intros Hread Hcs Hh Hne d Hsi Hti.
  unfold _parse_metadata_file, _detect_delimiter. rewrite Hread. cbn [rbind].
  rewrite next_noncomment_app by done. cbn [next_noncomment]. rewrite Hh.
  cbv iota zeta. rewrite Hne. cbn [negb]. fold d. by rewrite Hsi, Hti.
Qed.

(** X4 ([_parse_metadata_file]): for a file whose header has a sample-ID and
    a sample-type column, a sample is in the result exactly when some data
    row writes it, and its value is the one of the last row that writes it. *)
Theorem _parse_metadata_file_rows (fs : fsys) (file_path : string)
    (cs : list string) (header : string) (rest : list string) (si ti : nat)
    (Hread : read_lines fs file_path = Some (cs ++ header :: rest)%list)
    (Hcs : Forall (fun c => starts_with_hash c = true) cs)
    (Hh : starts_with_hash header = false)
    (Hne : nonempty (py_strip header) = true)
    (Hsi : _find_column_index
             (py_split (detect_delimiter_lines (cs ++ header :: rest)) (py_strip header))
             SAMPLE_ID_COLUMNS = Some si)
    (Hti : _find_column_index
             (py_split (detect_delimiter_lines (cs ++ header :: rest)) (py_strip header))
             SAMPLE_TYPE_COLUMNS = Some ti) :
  let d := detect_delimiter_lines (cs ++ header :: rest) in
  exists m, _parse_metadata_file fs file_path = Ok m /\
    (forall k, m !! k = None <-> Forall (fun l => metadata_key d si ti l <> Some k) rest) /\
    (forall k b r1 l r2, rest = (r1 ++ l :: r2)%list ->
       metadata_entry d si ti l = Some (k, b) ->
       Forall (fun l' => metadata_key d si ti l' <> Some k) r2 ->
       m !! k = Some b).
Proof.
  intros d. exists (fold_left (metadata_row d si ti) rest ∅). split.
  { by apply _parse_metadata_file_layout. }
  split.
  - intros k. split; [by intros H; apply metadata_rows_none in H as [_ H]|].
    intros H. rewrite metadata_rows_untouched by done. apply lookup_empty.
  - intros k b r1 l r2 -> Hl Hr2. by apply metadata_rows_last.
Qed.


(** ** [str.split] on one separator *)

Lemma py_split_not_nil (d : ascii) (s : string) : py_split d s <> [].
Proof.
  induction s as [|c s IH]; simpl; [done|].
  destruct (c =? d)%char; [done|]. by destruct (py_split d s).
Qed.

Lemma py_split_app_sep (d : ascii) (x y : string) :
  py_split d (x ++ String d y) = (py_split d x ++ py_split d y)%list.
Proof.
  induction x as [|c x IH].
  - rewrite sapp_nil. simpl. by rewrite Ascii.eqb_refl.
  - rewrite sapp_cons. cbn [py_split]. rewrite IH.
    destruct (c =? d)%char; [done|].
    destruct (py_split d x) as [|x0 xs] eqn:Hx; [by apply py_split_not_nil in Hx|done].
Qed.

Lemma py_split_nosep (d : ascii) (x : string) : py_count d x = 0 -> py_split d x = [x].
Proof.
  induction x as [|c x IH]; [done|]. simpl.
  destruct (c =? d)%char; [done|]. simpl. intros Hx. by rewrite IH.
Qed.

(** X6 ([extract_study_info]): for a path [.../proj/file] the project is the
    parent directory [proj]; the study and centre are the first two
    ['_']-separated parts of it, or [proj] and [""] when it has no ['_'];
    a path [proj/file] of two parts gives study [proj] and centre [""]
    even when [proj] contains ['_']. *)
Theorem extract_study_info_parent (a proj file : string)
    (Hproj : py_count "/"%char proj = 0) (Hfile : py_count "/"%char file = 0) :
  (py_count "_"%char proj = 0 ->
     extract_study_info (a ++ "/" ++ proj ++ "/" ++ file) = (proj, proj, EmptyString)) /\
  (forall study center r,
     proj = study ++ "_" ++ center ++ r ->
     py_count "_"%char study = 0 -> py_count "_"%char center = 0 ->
     (r = EmptyString \/ exists r', r = "_" ++ r') ->
     extract_study_info (a ++ "/" ++ proj ++ "/" ++ file) = (proj, study, center)) /\
  extract_study_info (proj ++ "/" ++ file) = (proj, proj, EmptyString).
Proof.
  assert (Hsplit : forall a,
    py_split "/"%char (a ++ "/" ++ proj ++ "/" ++ file) =
      (py_split "/"%char a ++ [proj; file])%list).
  { intros a'. rewrite ?sapp_cons, ?sapp_nil.
    rewrite !py_split_app_sep, (py_split_nosep _ proj), (py_split_nosep _ file) by done.
    done. }
  assert (Hproj_of : forall a, exists rest_len,
    length (py_split "/"%char (a ++ "/" ++ proj ++ "/" ++ file)) = S (S (S rest_len)) /\
    py_split "/"%char (a ++ "/" ++ proj ++ "/" ++ file)
      !! (length (py_split "/"%char (a ++ "/" ++ proj ++ "/" ++ file)) - 2) = Some proj).
  { intros a'. rewrite Hsplit. rewrite length_app. simpl.
    destruct (py_split "/"%char a') as [|x xs] eqn:Ha; [by apply py_split_not_nil in Ha|].
    exists (length xs). split; [simpl; lia|].
    rewrite lookup_app_r by (simpl; lia).
    replace (length (x :: xs) + 2 - 2 - length (x :: xs)) with 0 by lia. done. }
  split; [|split].
  - intros Hus. destruct (Hproj_of a) as (n & Hlen & Hp). unfold extract_study_info.
    rewrite Hlen. cbn [Nat.leb]. rewrite <- Hlen, Hp. simpl default.
    by rewrite py_split_nosep.
  - intros study center r -> Hs Hc Hr. destruct (Hproj_of a) as (n & Hlen & Hp).
    unfold extract_study_info. rewrite Hlen. cbn [Nat.leb]. rewrite <- Hlen, Hp.
    simpl default. rewrite ?sapp_cons, ?sapp_nil.
    rewrite py_split_app_sep, (py_split_nosep _ study) by done.
    destruct Hr as [->|[r' ->]].
    + rewrite sapp_nil_r, py_split_nosep by done. done.
    + rewrite ?sapp_cons, ?sapp_nil.
      rewrite py_split_app_sep, py_split_nosep by done. done.
  - unfold extract_study_info. rewrite ?sapp_cons, ?sapp_nil.
    rewrite py_split_app_sep, !py_split_nosep by done. done.
Qed.

Lemma word_before_lower (a : string) :
  word_before (last_of None (py_lower a)) = word_before (last_of None a).
Proof.
  change (@None ascii) with (option_map lower_char None) at 1.
  rewrite last_of_lower. destruct (last_of None a); [|done]. apply lower_char_word.
Qed.

(** X7 ([is_model_study_path]): a path containing one of the words "ccle",
    "pdx", "cellline", "cell_line", "xenograft", "test" (any letter case)
    between non-word characters is a model path; the check ignores letter
    case; the word must be whole, with ['_'] a word character, so
    "brca_test" and "contest" do not count. *)
Theorem is_model_study_path_word :
  (forall a w b, py_lower w ∈ study_path_words ->
     word_before (last_of None a) = false -> word_after b = false ->
     is_model_study_path (a ++ w ++ b) = true) /\
  (forall path, is_model_study_path (py_lower path) = is_model_study_path path) /\
  is_model_study_path "data/brca_test/data_mutations.txt" = false /\
  is_model_study_path "data/contest/data_mutations.txt" = false.
Proof.
  split; [|split; [|split; vm_compute; reflexivity]].
  - intros a w b Hw Ha Hb. unfold is_model_study_path. rewrite !py_lower_app.
    rewrite <- (word_before_lower a) in Ha. rewrite <- (word_after_lower b) in Hb.
    apply existsb_exists.
    repeat (apply elem_of_cons in Hw as [Hw|Hw]); [..|by apply elem_of_nil in Hw];
      exists (bounded (py_lower w));
      (split; [apply list_elem_of_In; rewrite Hw; unfold MODEL_STUDY_PATTERNS;
               repeat (first [left; reflexivity | right])|]);
      unfold re_search; apply search_from_app; rewrite Hw, ?sapp_cons, ?sapp_nil;
      simpl; unfold at_boundary; rewrite Ha, Hb; reflexivity.
  - intros path. unfold is_model_study_path. by rewrite py_lower_idem.
Qed.

Lemma findall_digits_all_digits (s : string) :
  Forall (fun x => all_digits x = true) (findall_digits s).
Proof.
  induction s as [|c s IH]; simpl; [constructor|].
  destruct (is_digit c) eqn:Hc; [|done].
  destruct s as [|c' s']; [repeat constructor; simpl; by rewrite Hc|].
  destruct (is_digit c') eqn:Hc'; [|constructor; [simpl; by rewrite Hc|done]].
  destruct (findall_digits (String c' s')) as [|x xs]; [repeat constructor; simpl; by rewrite Hc|].
  inversion IH as [|? ? Hx Hxs]; subst. constructor; [simpl; by rewrite Hc, Hx|done].
Qed.

Lemma frameshift_info_digits (classification hgvsp : string) :
  nonempty (frameshift_info classification hgvsp).2 = true /\
  all_digits (frameshift_info classification hgvsp).2 = true /\
  all_digits (frameshift_info classification hgvsp).1 = true.
Proof.
  unfold frameshift_info.
  destruct (py_contains "frameshift" (py_lower classification)); cbn [negb].
  2: { simpl. auto. }
  pose proof (findall_digits_all_digits hgvsp) as Hd.
  pose proof (findall_digits_nonempty hgvsp) as Hn.
  destruct (findall_digits hgvsp) as [|n1 [|n2 ns]]; [simpl; auto|simpl|].
  - inversion Hd as [|? ? Hd1 _]; subst. auto.
  - inversion Hd as [|? ? Hd1 Hd2]; inversion Hd2 as [|? ? Hd3 _]; subst.
    inversion Hn as [|? ? Hn1 Hn2]; inversion Hn2 as [|? ? Hn3 _]; subst.
    simpl. rewrite Hn3. auto.
Qed.

(** X8 ([make_record]): the frameshift length of every emitted record is a
    non-empty string of digits, and its frameshift start is empty or a
    string of digits. *)
Theorem make_record_digit_fields (proj_name gene sample vtype hgvsp classification : string) :
  let o := make_record proj_name gene sample vtype hgvsp classification in
  nonempty (o_fslen o) = true /\ all_digits (o_fslen o) = true /\
  all_digits (o_fsstart o) = true.
Proof.
  pose proof (frameshift_info_digits classification hgvsp) as H.
  unfold make_record. destruct (frameshift_info classification hgvsp) as [s l].
  exact H.
Qed.

Lemma py_split_fields_nosep (d : ascii) (s : string) :
  Forall (fun f => py_count d f = 0) (py_split d s).
Proof.
  induction s as [|c s IH]; simpl; [by repeat constructor|].
  destruct (c =? d)%char eqn:Hc; [by constructor|].
  destruct (py_split d s) as [|x xs]; [repeat constructor; simpl; by rewrite Hc|].
  inversion IH as [|? ? Hx Hxs]; subst. constructor; [|done]. simpl. by rewrite Hc, Hx.
Qed.

Lemma all_digits_no_tab (s : string) : all_digits s = true -> py_count tab s = 0.
Proof.
  induction s as [|c s IH]; [done|]. simpl. intros [Hc Hs]%andb_prop.
  rewrite IH by done. destruct (c =? tab)%char eqn:Ht; [|done].
  apply Ascii.eqb_eq in Ht. subst. done.
Qed.

Lemma get_field_no_sep (d : ascii) (fields : list string) (idx : option nat) :
  Forall (fun f => py_count d f = 0) fields -> py_count d (get_field fields idx) = 0.
Proof.
  intros Hf. unfold get_field. destruct idx as [i|]; [|done].
  destruct (i <? length fields); [|done].
  destruct (fields !! i) eqn:Hi; simpl; [|done].
  rewrite Forall_lookup in Hf. by apply (Hf i).
Qed.

Lemma format_record_split (o : output_record) :
  Forall (fun f => py_count tab f = 0)
    [o_proj o; o_gene o; o_sample o; o_vtype o; o_hgvsp o; o_fsstart o; o_fslen o] ->
  py_split tab (format_record o) =
    [o_proj o; o_gene o; o_sample o; o_vtype o; o_hgvsp o; o_fsstart o; o_fslen o].
Proof.
  intros Hf. repeat (let H := fresh in inversion Hf as [|? ? H Hf']; subst; clear Hf; rename Hf' into Hf).
  unfold format_record. simpl String.concat. rewrite ?sapp_cons, ?sapp_nil.
  rewrite !py_split_app_sep, !py_split_nosep by done. done.
Qed.

(** X9 ([mutation_row], line 253): for a tab-delimited file and a project
    name without tabs, every emitted output line splits on tabs into exactly
    the seven fields of its record, the first being the project name. *)
Theorem mutation_row_tab_fields (proj_name : string) (model_samples : gset string)
    (include_model : bool) (r : roles) (hgvsp_i : nat) (line : string) (o : output_record)
    (Hproj : py_count tab proj_name = 0)
    (Hrow : mutation_row tab proj_name model_samples include_model r hgvsp_i line = Some o) :
  o_proj o = proj_name /\
  py_split tab (format_record o) =
    [o_proj o; o_gene o; o_sample o; o_vtype o; o_hgvsp o; o_fsstart o; o_fslen o].
Proof.
  unfold mutation_row in Hrow.
  destruct (skipped_line line); [done|].
  pose proof (py_split_fields_nosep tab (py_strip line)) as Hf.
  destruct (match sample_idx r with Some _ => _ | None => false end); [done|].
  injection Hrow as <-.
  pose proof (make_record_digit_fields proj_name
    (get_field (py_split tab (py_strip line)) (gene_idx r))
    (get_field (py_split tab (py_strip line)) (sample_idx r))
    (get_field (py_split tab (py_strip line)) (vtype_idx r))
    (get_field (py_split tab (py_strip line)) (Some hgvsp_i))
    (get_field (py_split tab (py_strip line)) (classification_idx r))) as (_ & Hl & Hs).
  split; [unfold make_record; by destruct (frameshift_info _ _)|].
  apply format_record_split.
  unfold make_record in *. destruct (frameshift_info _ _) as [fs fl]. simpl in *.
  rewrite Forall_forall. intros x Hx.
  repeat (apply elem_of_cons in Hx as [->|Hx]); [..|by apply elem_of_nil in Hx];
    first [done | apply get_field_no_sep; done | apply all_digits_no_tab; done
          | apply (get_field_no_sep _ _ (Some hgvsp_i)); done
          | destruct (py_contains _ _); [done|by apply get_field_no_sep]].
Qed.

Lemma make_record_sample (proj_name gene sample vtype hgvsp classification : string) :
  o_sample (make_record proj_name gene sample vtype hgvsp classification) = sample.
Proof. unfold make_record. by destruct (frameshift_info _ _). Qed.

Lemma mutation_row_not_model (d : ascii) (proj_name : string) (model_samples : gset string)
    (r : roles) (hgvsp_i : nat) (line : string) (o : output_record) :
  mutation_row d proj_name model_samples false r hgvsp_i line = Some o ->
  o_sample o = EmptyString \/ py_strip (o_sample o) ∉ model_samples.
Proof.
  unfold mutation_row. destruct (skipped_line line); [done|]. cbn [negb andb].
  destruct (sample_idx r) as [si|] eqn:Hsi.
  - destruct (bool_decide (model_samples = ∅)) eqn:Hms; cbn [negb andb].
    + intros [= <-]. rewrite make_record_sample. right.
      apply bool_decide_eq_true in Hms. rewrite Hms. apply not_elem_of_empty.
    + destruct (si <? length (py_split d (py_strip line))) eqn:Hlt; cbn [andb].
      * destruct (bool_decide (_ ∈ model_samples)) eqn:Hin; [done|].
        intros [= <-]. rewrite make_record_sample. right. unfold get_field. rewrite Hlt.
        by apply bool_decide_eq_false in Hin.
      * intros [= <-]. rewrite make_record_sample. left. unfold get_field. by rewrite Hlt.
  - intros [= <-]. rewrite make_record_sample. by left.
Qed.

Lemma mutation_rows_not_model (d : ascii) (proj_name : string) (model_samples : gset string)
    (r : roles) (hgvsp_i : nat) (lines : list string) :
  Forall (fun out_line => exists o, out_line = format_record o /\
            (o_sample o = EmptyString \/ py_strip (o_sample o) ∉ model_samples))
    (mutation_rows d proj_name model_samples false r hgvsp_i lines).
Proof.
  induction lines as [|line lines IH]; simpl; [done|].
  destruct (mutation_row d proj_name model_samples false r hgvsp_i line) as [o|] eqn:Ho;
    [|done].
  constructor; [|done]. exists o. split; [done|]. by eapply mutation_row_not_model.
Qed.

(** X10 ([process_mutation_file]): without [include_model], every output
    line is the formatting of a record whose sample field is empty or,
    stripped, not a model sample. *)
Theorem process_mutation_file_no_model_rows (fs : fsys) (file_path : string)
    (model_samples seen_uids : gset string) (out : list string)
    (Hout : fst (process_mutation_file fs file_path model_samples seen_uids false) = Ok out) :
  Forall (fun out_line => exists o, out_line = format_record o /\
            (o_sample o = EmptyString \/ py_strip (o_sample o) ∉ model_samples)) out.
Proof.
  unfold process_mutation_file in Hout.
  destruct (extract_study_info file_path) as [[proj_name study] center].
  destruct (bool_decide _); simpl in Hout; [by injection Hout as <-|].
  unfold process_after_dedup in Hout. cbn [negb andb] in Hout.
  destruct (is_model_study_path file_path); [by injection Hout as <-|].
  destruct (if negb (bool_decide (model_samples = ∅)) then _ else _) as [[]|e];
    cbn [rbind] in Hout; [by injection Hout as <-| |done].
  destruct (_detect_delimiter fs file_path) as [d|e]; cbn [rbind] in Hout; [|done].
  destruct (read_lines fs file_path) as [lines|]; [|by injection Hout as <-].
  injection Hout as <-. unfold read_mutation_lines.
  destruct (next_noncomment lines) as [[l rest]|]; [|done].
  destruct (negb (nonempty (py_strip l))); [done|].
  destruct (hgvsp_idx _) as [hi|]; [|done].
  apply mutation_rows_not_model.
Qed.

Lemma mutation_rows_include_model (d : ascii) (proj_name : string)
    (model_samples : gset string) (r : roles) (hgvsp_i : nat) (lines : list string) :
  length (mutation_rows d proj_name model_samples true r hgvsp_i lines) =
    length (filter (fun l => skipped_line l = false) lines).
Proof.
  induction lines as [|line lines IH]; [done|]. simpl.
  rewrite filter_cons. unfold mutation_row.
  destruct (skipped_line line); [done|]. cbn [negb andb].
  assert (Hf : match sample_idx r with Some _ => false | None => false end = false)
    by (by destruct (sample_idx r)).
  rewrite Hf. simpl. by rewrite IH.
Qed.

(** X11 ([process_mutation_file]): with [include_model], a new study whose
    file can be read and whose header has an [HGVSp] column yields one
    output line per data row (not a comment, not blank) after the header,
    and its key is added to the seen set. *)
Theorem process_mutation_file_include_model (fs : fsys) (file_path : string)
    (model_samples seen_uids : gset string)
    (cs : list string) (header : string) (rest : list string) (hgvsp_i : nat)
    (Hnew : study_uid file_path ∉ seen_uids)
    (Hread : read_lines fs file_path = Some (cs ++ header :: rest)%list)
    (Hcs : Forall (fun c => starts_with_hash c = true) cs)
    (Hh : starts_with_hash header = false)
    (Hne : nonempty (py_strip header) = true)
    (Hhgvsp : hgvsp_idx (resolve_columns
                (py_split (detect_delimiter_lines (cs ++ header :: rest)) (py_strip header)))
              = Some hgvsp_i) :
  exists out,
    process_mutation_file fs file_path model_samples seen_uids true
      = (Ok out, {[study_uid file_path]} ∪ seen_uids) /\
    length out = length (filter (fun l => skipped_line l = false) rest).
Proof.
  unfold process_mutation_file. unfold study_uid in *.
  destruct (extract_study_info file_path) as [[proj_name study] center].
  rewrite bool_decide_false by done.
  unfold process_after_dedup. cbn [negb andb rbind].
  unfold _detect_delimiter. rewrite Hread. cbn [rbind].
  unfold read_mutation_lines. rewrite next_noncomment_app by done.
  cbn [next_noncomment]. rewrite Hh. cbv iota zeta. rewrite Hne. cbn [negb].
  rewrite Hhgvsp. eexists. split; [reflexivity|].
  apply mutation_rows_include_model.
Qed.






(** X13 ([main] loop): the merged output does not depend on the order in
    which the mutation files were discovered. *)
Theorem merge_mutation_files_order (fs : fsys) (model_samples : gset string)
    (include_model : bool) (files files' : list string) (Hperm : files ≡ₚ files') :
  merge_mutation_files fs model_samples include_model files =
  merge_mutation_files fs model_samples include_model files'.
Proof.
  unfold merge_mutation_files.
  assert (Hs : py_sorted files = py_sorted files').
  { apply (Sorted_unique String.le); try (apply Sorted_merge_sort; apply _).
    unfold py_sorted. by rewrite !merge_sort_Permutation. }
  by rewrite Hs.
Qed.

Lemma split_comments_app (cs : list string) (header : string) (rest : list string) :
  Forall (fun c => starts_with_hash c = true) cs -> starts_with_hash header = false ->
  split_comments (cs ++ header :: rest) = (cs, Some (header, rest)).
Proof.
  induction 1 as [|c cs Hc _ IH]; intros Hh; simpl; [by rewrite Hh|].
  rewrite Hc, IH by done. done.
Qed.

Lemma split_comments_all (lines : list string) :
  Forall (fun c => starts_with_hash c = true) lines -> split_comments lines = (lines, None).
Proof. induction 1 as [|c cs Hc _ IH]; simpl; [done|]. by rewrite Hc, IH. Qed.

Lemma filter_rows_spec (d : ascii) (idx : nat) (ms : gset string) (rest : list string) :
  (filter_rows d idx ms rest).1.1 = filter (fun l => model_row d idx ms l = false) rest /\
  (filter_rows d idx ms rest).2 = length (filter (fun l => model_row d idx ms l = true) rest) /\
  (filter_rows d idx ms rest).1.2 + (filter_rows d idx ms rest).2 =
    length (filter (fun l => skipped_line l = false) rest).
Proof.
  induction rest as [|line rest IH]; [done|]. simpl.
  destruct (filter_rows d idx ms rest) as [[out k] f]. simpl in IH.
  destruct IH as (-> & -> & Hkf). rewrite !filter_cons.
  destruct (skipped_line line) eqn:Hs.
  - assert (Hm : model_row d idx ms line = false) by (unfold model_row; by rewrite Hs).
    rewrite Hm. simpl. done.
  - destruct (length (py_split d (py_strip line)) <=? idx) eqn:Hle.
    + assert (Hm : model_row d idx ms line = false).
      { unfold model_row. rewrite Hs. cbn [negb andb].
        assert (Hlt : (idx <? length (py_split d (py_strip line))) = false)
          by (apply Nat.ltb_ge; apply Nat.leb_le in Hle; lia).
        by rewrite Hlt. }
      rewrite Hm. simpl. split; [done|]. split; [done|]. lia.
    + destruct (bool_decide (py_strip (default EmptyString
                  (py_split d (py_strip line) !! idx)) ∈ ms)) eqn:Hin.
      * assert (Hm : model_row d idx ms line = true).
        { unfold model_row. rewrite Hs, Hin, andb_true_r. cbn [negb andb].
          apply Nat.ltb_lt. apply Nat.leb_gt in Hle. lia. }
        rewrite Hm. simpl. repeat split; try done; lia.
      * assert (Hm : model_row d idx ms line = false).
        { unfold model_row. rewrite Hin. by rewrite andb_false_r. }
        rewrite Hm. simpl. repeat split; try done; lia.
Qed.

Lemma filter_mutation_rows_layout (fs : fsys) (writable : string -> bool)
    (mutation_file : string) (ms : gset string) (output_file : option string)
    (cs : list string) (header : string) (rest : list string) (idx : nat) :
  read_lines fs mutation_file = Some (cs ++ header :: rest)%list ->
  Forall (fun c => starts_with_hash c = true) cs ->
  starts_with_hash header = false -> nonempty header = true ->
  get_sample_id_column_index
    (py_split (detect_delimiter_lines (cs ++ header :: rest)) (py_strip header)) = Some idx ->
  filter_mutation_rows fs writable mutation_file ms output_file =
    let '(kept_lines, rows_kept, rows_filtered) :=
      filter_rows (detect_delimiter_lines (cs ++ header :: rest)) idx ms rest in
    match output_target output_file with
    | Some out =>
        if writable out
        then Ok (rows_kept, rows_filtered, Some (map ensure_nl (cs ++ header :: kept_lines)%list))
        else Err (OSError out)
    | None => Ok (rows_kept, rows_filtered, None)
    end.
Proof.
  intros Hread Hcs Hh Hne Hidx.
  unfold filter_mutation_rows, _detect_delimiter. rewrite Hread. cbn [rbind].
  rewrite split_comments_app by done. cbv iota zeta. rewrite Hne. cbn [negb].
  by rewrite Hidx.
Qed.

(** X14 ([filter_mutation_rows]): when the header has a sample-ID column,
    the lines written are the comment lines, the header and every following
    line except the data rows whose stripped sample ID is a model sample,
    in order, each ending in a newline; [rows_filtered] counts the dropped
    rows, and [rows_kept + rows_filtered] the data rows (not a comment, not
    blank). Nothing is written when [output_file] is [None] or empty. *)
Theorem filter_mutation_rows_sample_column (fs : fsys) (writable : string -> bool)
    (mutation_file : string) (model_samples : gset string) (output_file : option string)
    (cs : list string) (header : string) (rest : list string) (idx : nat)
    (Hread : read_lines fs mutation_file = Some (cs ++ header :: rest)%list)
    (Hcs : Forall (fun c => starts_with_hash c = true) cs)
    (Hh : starts_with_hash header = false) (Hne : nonempty header = true)
    (Hidx : get_sample_id_column_index
              (py_split (detect_delimiter_lines (cs ++ header :: rest)) (py_strip header))
            = Some idx)
    (Hw : forall out, output_target output_file = Some out -> writable out = true) :
  let d := detect_delimiter_lines (cs ++ header :: rest) in
  exists rows_kept rows_filtered,
    filter_mutation_rows fs writable mutation_file model_samples output_file =
      Ok (rows_kept, rows_filtered,
          (fun _ => map ensure_nl
             (cs ++ header :: filter (fun l => model_row d idx model_samples l = false) rest)%list)
          <$> output_target output_file) /\
    rows_filtered = length (filter (fun l => model_row d idx model_samples l = true) rest) /\
    rows_kept + rows_filtered = length (filter (fun l => skipped_line l = false) rest).
Proof.
  intros d. rewrite (filter_mutation_rows_layout _ _ _ _ _ cs header rest idx) by done.
  fold d. pose proof (filter_rows_spec d idx model_samples rest) as (Hout & Hf & Hkf).
  destruct (filter_rows d idx model_samples rest) as [[out k] f]. simpl in *.
  exists k, f. split; [|done].
  destruct (output_target output_file) as [o|] eqn:Ho; [|done].
  rewrite Hw by done. simpl. by rewrite Hout.
Qed.

Lemma model_row_empty (d : ascii) (idx : nat) (line : string) :
  model_row d idx ∅ line = false.
Proof.
  unfold model_row. rewrite bool_decide_false by apply not_elem_of_empty.
  by rewrite andb_false_r.
Qed.

Lemma filter_model_row_empty (d : ascii) (idx : nat) (l : list string) :
  filter (fun x => model_row d idx ∅ x = true) l = [] /\
  filter (fun x => model_row d idx ∅ x = false) l = l.
Proof.
  induction l as [|x l [IH1 IH2]]; [done|]. rewrite !filter_cons, model_row_empty.
  simpl. by rewrite IH1, IH2.
Qed.

(** X15 ([filter_mutation_rows]): with no model samples and a sample-ID
    column, every line of the file is written back (a newline added where
    missing), no row is filtered, and every data row is counted as kept. *)
Theorem filter_mutation_rows_no_model_samples (fs : fsys) (writable : string -> bool)
    (mutation_file out : string)
    (cs : list string) (header : string) (rest : list string) (idx : nat)
    (Hread : read_lines fs mutation_file = Some (cs ++ header :: rest)%list)
    (Hcs : Forall (fun c => starts_with_hash c = true) cs)
    (Hh : starts_with_hash header = false) (Hne : nonempty header = true)
    (Hidx : get_sample_id_column_index
              (py_split (detect_delimiter_lines (cs ++ header :: rest)) (py_strip header))
            = Some idx)
    (Hout : nonempty out = true) (Hw : writable out = true) :
  filter_mutation_rows fs writable mutation_file ∅ (Some out) =
    Ok (length (filter (fun l => skipped_line l = false) rest), 0,
        Some (map ensure_nl (cs ++ header :: rest)%list)).
Proof.
  rewrite (filter_mutation_rows_layout _ _ _ _ _ cs header rest idx) by done.
  pose proof (filter_rows_spec (detect_delimiter_lines (cs ++ header :: rest)) idx ∅ rest)
    as (Hkept & Hf & Hkf).
  destruct (filter_rows _ idx ∅ rest) as [[kept k] f]. simpl in *.
  unfold output_target. rewrite Hout, Hw.
  destruct (filter_model_row_empty (detect_delimiter_lines (cs ++ header :: rest)) idx rest)
    as [H1 H2].
  rewrite H2 in Hkept. rewrite H1 in Hf. simpl in Hf. subst. do 3 f_equal. lia.
Qed.

(** X16 ([filter_mutation_rows]): without a sample-ID column the file is
    copied unchanged and every line after the header (comments and blank
    lines included) counts as kept, but only when an output file is given;
    without one the counts are (0, 0). *)
Theorem filter_mutation_rows_no_sample_column (fs : fsys) (writable : string -> bool)
    (mutation_file : string) (model_samples : gset string) (output_file : option string)
    (cs : list string) (header : string) (rest : list string)
    (Hread : read_lines fs mutation_file = Some (cs ++ header :: rest)%list)
    (Hcs : Forall (fun c => starts_with_hash c = true) cs)
    (Hh : starts_with_hash header = false) (Hne : nonempty header = true)
    (Hidx : get_sample_id_column_index
              (py_split (detect_delimiter_lines (cs ++ header :: rest)) (py_strip header))
            = None)
    (Hw : forall out, output_target output_file = Some out -> writable out = true) :
  filter_mutation_rows fs writable mutation_file model_samples output_file =
    match output_target output_file with
    | Some _ => Ok (length rest, 0, Some (cs ++ header :: rest)%list)
    | None => Ok (0, 0, None)
    end.
Proof.
  unfold filter_mutation_rows, _detect_delimiter. rewrite Hread. cbn [rbind].
  rewrite split_comments_app by done. cbv iota zeta. rewrite Hne. cbn [negb].
  rewrite Hidx. destruct (output_target output_file) as [o|] eqn:Ho; [|done].
  by rewrite Hw.
Qed.

(** X17 ([filter_mutation_rows]): a file with no header line (empty or
    only comments) gives (0, 0) and the output file is not written, even
    when one is given. *)
Theorem filter_mutation_rows_no_header (fs : fsys) (writable : string -> bool)
    (mutation_file : string) (model_samples : gset string) (output_file : option string)
    (lines : list string)
    (Hread : read_lines fs mutation_file = Some lines)
    (Hcs : Forall (fun c => starts_with_hash c = true) lines) :
  filter_mutation_rows fs writable mutation_file model_samples output_file = Ok (0, 0, None).
Proof.
  unfold filter_mutation_rows, _detect_delimiter. rewrite Hread. cbn [rbind].
  by rewrite split_comments_all.
Qed.

Lemma dict_get_set (k k' : string) (v : nat) (d : list (string * nat)) :
  dict_get k' (dict_set k v d) = if String.eqb k k' then v else dict_get k' d.
Proof.
  induction d as [|[k0 v0] d IH]; simpl.
  - by destruct (String.eqb k k').
  - destruct (String.eqb_spec k0 k) as [->|Hne]; simpl.
    + destruct (String.eqb_spec k k'); done.
    + rewrite IH. destruct (String.eqb_spec k0 k') as [->|Hne']; [|done].
      destruct (String.eqb_spec k k'); [congruence|done].
Qed.

Lemma dict_set_keys (k : string) (v : nat) (d : list (string * nat)) :
  NoDup (map fst d) -> NoDup (map fst (dict_set k v d)) /\
  (forall g, g ∈ map fst (dict_set k v d) <-> g = k \/ g ∈ map fst d).
Proof.
  induction d as [|[k0 v0] d IH]; simpl; intros Hnd.
  - split; [by repeat constructor; apply not_elem_of_nil|].
    intros g. rewrite elem_of_cons. split; [intros [->|H]; [by left|by apply elem_of_nil in H]|].
    intros [->|H]; [by left|by apply elem_of_nil in H].
  - apply NoDup_cons in Hnd as [Hk0 Hnd].
    destruct (String.eqb_spec k0 k) as [->|Hne]; simpl.
    + split; [by apply NoDup_cons|]. intros g. rewrite elem_of_cons. naive_solver.
    + destruct (IH Hnd) as [Hnd' Hkeys]. split.
      * apply NoDup_cons. split; [|done]. rewrite Hkeys. intros [->|H]; [done|done].
      * intros g. rewrite !elem_of_cons, Hkeys. naive_solver.
Qed.

Lemma dict_set_pos (k : string) (v : nat) (d : list (string * nat)) :
  0 < v -> Forall (fun kv => 0 < kv.2) d -> Forall (fun kv => 0 < kv.2) (dict_set k v d).
Proof.
  intros Hv. induction d as [|[k0 v0] d IH]; simpl; intros Hd; [by repeat constructor|].
  inversion Hd as [|? ? H0 Hd']; subst.
  destruct (String.eqb k0 k); constructor; auto.
Qed.

Lemma dict_get_absent (g : string) (d : list (string * nat)) :
  g ∉ map fst d -> dict_get g d = 0.
Proof.
  induction d as [|[k v] d IH]; simpl; [done|]. rewrite elem_of_cons.
  intros Hg. destruct (String.eqb_spec k g) as [->|]; [naive_solver|]. naive_solver.
Qed.

Lemma dict_get_present (g : string) (d : list (string * nat)) :
  Forall (fun kv => 0 < kv.2) d -> g ∈ map fst d -> 0 < dict_get g d.
Proof.
  induction d as [|[k v] d IH]; simpl; intros Hd Hg; [by apply elem_of_nil in Hg|].
  inversion Hd as [|? ? Hv Hd']; subst. apply elem_of_cons in Hg.
  destruct (String.eqb_spec k g) as [->|Hne]; [done|]. apply IH; [done|naive_solver].
Qed.

Lemma count_gene_spec (gc : list (string * nat)) (line : string) :
  NoDup (map fst gc) -> Forall (fun kv => 0 < kv.2) gc ->
  NoDup (map fst (count_gene gc line)) /\ Forall (fun kv => 0 < kv.2) (count_gene gc line) /\
  (forall g, dict_get g (count_gene gc line) =
     dict_get g gc + if bool_decide (line_gene line = Some g) then 1 else 0) /\
  (forall g, g ∈ map fst (count_gene gc line) <-> line_gene line = Some g \/ g ∈ map fst gc).
Proof.
  intros Hnd Hpos. unfold count_gene, line_gene.
  destruct (2 <=? length (py_split tab line)).
  2:{ split; [done|]. split; [done|]. split.
      - intros g. rewrite bool_decide_false by done. lia.
      - intros g. naive_solver. }
  destruct (py_split tab line !! 1) as [gene|].
  2:{ split; [done|]. split; [done|]. split.
      - intros g. rewrite bool_decide_false by done. lia.
      - intros g. naive_solver. }
  destruct (dict_set_keys gene (S (dict_get gene gc)) gc Hnd) as [Hnd' Hkeys].
  split; [done|]. split; [apply dict_set_pos; [lia|done]|]. split.
  - intros g. rewrite dict_get_set. destruct (String.eqb_spec gene g) as [->|Hne].
    + rewrite bool_decide_true by done. lia.
    + rewrite bool_decide_false by congruence. lia.
  - intros g. rewrite Hkeys. naive_solver.
Qed.

Lemma count_genes_fold (lines : list string) (gc : list (string * nat)) :
  NoDup (map fst gc) -> Forall (fun kv => 0 < kv.2) gc ->
  NoDup (map fst (fold_left count_gene lines gc)) /\
  Forall (fun kv => 0 < kv.2) (fold_left count_gene lines gc) /\
  (forall g, dict_get g (fold_left count_gene lines gc) =
     dict_get g gc + length (filter (fun l => line_gene l = Some g) lines)) /\
  (forall g, g ∈ map fst (fold_left count_gene lines gc) <->
     Exists (fun l => line_gene l = Some g) lines \/ g ∈ map fst gc).
Proof.
  revert gc. induction lines as [|line lines IH]; intros gc Hnd Hpos; simpl.
  - split; [done|]. split; [done|]. split; [intros; lia|]. intros g.
    rewrite Exists_nil. naive_solver.
  - destruct (count_gene_spec gc line Hnd Hpos) as (Hnd' & Hpos' & Hget & Hkeys).
    destruct (IH _ Hnd' Hpos') as (Hnd'' & Hpos'' & Hget' & Hkeys').
    split; [done|]. split; [done|]. split.
    + intros g. rewrite Hget', Hget, filter_cons.
      destruct (decide (line_gene line = Some g)).
      * rewrite bool_decide_true by done. simpl. lia.
      * rewrite bool_decide_false by done. lia.
    + intros g. rewrite Hkeys', Hkeys, Exists_cons. naive_solver.
Qed.

(** X18 ([main], lines 324-355): each gene appears once among the items of
    [gene_counts] (the lines of the [.cnt] file); the genes are exactly
    the second tab-separated fields of the output lines, and each gene's
    count is the number of output lines whose second field it is. *)
Theorem gene_counts_of_spec (all_output_lines : list string) :
  let gene_counts := gene_counts_of all_output_lines in
  NoDup (map fst gene_counts) /\
  (forall g, g ∈ map fst gene_counts <->
     Exists (fun l => line_gene l = Some g) all_output_lines) /\
  (forall g n, (g, n) ∈ gene_counts ->
     n = length (filter (fun l => line_gene l = Some g) all_output_lines)) /\
  Forall (fun kv => 0 < kv.2) gene_counts.
Proof.
  unfold gene_counts_of.
  destruct (count_genes_fold all_output_lines [] ltac:(constructor) ltac:(constructor))
    as (Hnd & Hpos & Hget & Hkeys).
  split; [done|]. split.
  { intros g. rewrite Hkeys. split; [intros [H|H]; [done|by apply elem_of_nil in H]|by left]. }
  split; [|done].
  intros g n Hin.
  assert (Hn : dict_get g (fold_left count_gene all_output_lines []) = n).
  2:{ rewrite <- Hn, Hget. simpl. lia. }
  clear Hget Hkeys. revert Hnd Hpos Hin.
  generalize (fold_left count_gene all_output_lines []) as gc.
  induction gc as [|[k v] gc IH]; simpl; intros Hnd Hpos Hin; [by apply elem_of_nil in Hin|].
  apply NoDup_cons in Hnd as [Hk Hnd]. inversion Hpos as [|? ? _ Hpos']; subst.
  apply elem_of_cons in Hin as [[= -> ->]|Hin].
  - by rewrite String.eqb_refl.
  - destruct (String.eqb_spec k g) as [->|Hne].
    + exfalso. apply Hk. apply list_elem_of_fmap. by exists (g, n).
    + by apply IH.
Qed.

(** ** Witnesses *)

Lemma _parse_metadata_file_rows_witness :
  exists m, _parse_metadata_file (fs_one "m.tsv" meta_lines) "m.tsv" = Ok m /\
    (forall k, m !! k = None <->
       Forall (fun l => metadata_key tab 0 1 l <> Some k) ["S1	PDX"; "S2	Primary"; "S1	Patient"]) /\
    (forall k b r1 l r2, ["S1	PDX"; "S2	Primary"; "S1	Patient"] = (r1 ++ l :: r2)%list ->
       metadata_entry tab 0 1 l = Some (k, b) ->
       Forall (fun l' => metadata_key tab 0 1 l' <> Some k) r2 -> m !! k = Some b).
Proof.
  apply (_parse_metadata_file_rows (fs_one "m.tsv" meta_lines) "m.tsv" ["#samples"]
           "SAMPLE_ID	SAMPLE_TYPE" ["S1	PDX"; "S2	Primary"; "S1	Patient"] 0 1);
    first [repeat constructor | vm_compute; reflexivity].
Defined.

Lemma extract_study_info_parent_witness :
  (py_count "_"%char "brca_tcga" = 0 ->
     extract_study_info ("data" ++ "/" ++ "brca_tcga" ++ "/" ++ "data_mutations.txt")
       = ("brca_tcga", "brca_tcga", EmptyString)) /\
  (forall study center r,
     "brca_tcga" = study ++ "_" ++ center ++ r ->
     py_count "_"%char study = 0 -> py_count "_"%char center = 0 ->
     (r = EmptyString \/ exists r', r = "_" ++ r') ->
     extract_study_info ("data" ++ "/" ++ "brca_tcga" ++ "/" ++ "data_mutations.txt")
       = ("brca_tcga", study, center)) /\
  extract_study_info ("brca_tcga" ++ "/" ++ "data_mutations.txt")
    = ("brca_tcga", "brca_tcga", EmptyString).
Proof.
  apply (extract_study_info_parent "data" "brca_tcga" "data_mutations.txt");
    vm_compute; reflexivity.
Defined.

Lemma is_model_study_path_word_witness :
  is_model_study_path ("data/" ++ "PDX" ++ "/study/data_mutations.txt") = true.
Proof.
  apply (proj1 is_model_study_path_word).
  - apply elem_of_cons. right. apply elem_of_cons. left. vm_compute. reflexivity.
  - vm_compute. reflexivity.
  - vm_compute. reflexivity.
Defined.

Lemma mutation_row_tab_fields_witness :
  o_proj fs_record = "st_ce" /\
  py_split tab (format_record fs_record) =
    [o_proj fs_record; o_gene fs_record; o_sample fs_record; o_vtype fs_record;
     o_hgvsp fs_record; o_fsstart fs_record; o_fslen fs_record].
Proof.
  apply (mutation_row_tab_fields "st_ce" ∅ false maf_roles 2
           "TP53	S1	p.P45fs*12	frameshift_variant");
    vm_compute; reflexivity.
Defined.

Lemma process_mutation_file_no_model_rows_witness :
  Forall (fun out_line => exists o, out_line = format_record o /\
            (o_sample o = EmptyString \/ py_strip (o_sample o) ∉ ({["S1"]} : gset string)))
    ["st_ce	KRAS	S2		p.G12D		0"].
Proof.
  apply (process_mutation_file_no_model_rows
           (fs_one "d/st_ce/data_mutations.txt" maf_lines) "d/st_ce/data_mutations.txt"
           {["S1"]} ∅).
  vm_compute. reflexivity.
Defined.

Lemma process_mutation_file_include_model_witness :
  exists out,
    process_mutation_file (fs_one "d/st_ce/data_mutations.txt" maf_lines)
      "d/st_ce/data_mutations.txt" ∅ ∅ true
      = (Ok out, {[study_uid "d/st_ce/data_mutations.txt"]} ∪ ∅) /\
    length out = length (filter (fun l => skipped_line l = false) (drop 2 maf_lines)).
Proof.
  apply (process_mutation_file_include_model _ _ ∅ ∅ (take 1 maf_lines)
           (default EmptyString (maf_lines !! 1)) (drop 2 maf_lines) 2).
  - apply not_elem_of_empty.
  - vm_compute. reflexivity.
  - repeat constructor.
  - vm_compute. reflexivity.
  - vm_compute. reflexivity.
  - vm_compute. reflexivity.
Defined.


Lemma merge_mutation_files_order_witness :
  merge_mutation_files two_studies_fs ∅ false two_studies =
  merge_mutation_files two_studies_fs ∅ false (reverse two_studies).
Proof.
  apply merge_mutation_files_order. unfold two_studies. simpl. apply perm_swap.
Defined.

Lemma filter_mutation_rows_sample_column_witness :
  exists rows_kept rows_filtered,
    filter_mutation_rows (fs_one "m.maf" filter_lines) (fun _ => true) "m.maf" {["M1"]}
      (Some "out.maf") =
      Ok (rows_kept, rows_filtered,
          (fun _ => map ensure_nl
             (["#v2"] ++ "Hugo_Symbol	Tumor_Sample_Barcode" ::
              filter (fun l => model_row tab 1 {["M1"]} l = false)
                ["TP53	S1"; ""; "KRAS	M1"])%list)
          <$> output_target (Some "out.maf")) /\
    rows_filtered = length (filter (fun l => model_row tab 1 {["M1"]} l = true)
                              ["TP53	S1"; ""; "KRAS	M1"]) /\
    rows_kept + rows_filtered =
      length (filter (fun l => skipped_line l = false) ["TP53	S1"; ""; "KRAS	M1"]).
Proof.
  apply (filter_mutation_rows_sample_column _ _ _ _ _ ["#v2"]
           "Hugo_Symbol	Tumor_Sample_Barcode" ["TP53	S1"; ""; "KRAS	M1"] 1);
    first [repeat constructor | vm_compute; reflexivity].
Defined.

Lemma filter_mutation_rows_no_model_samples_witness :
  filter_mutation_rows (fs_one "m.maf" filter_lines) (fun _ => true) "m.maf" ∅ (Some "out.maf") =
    Ok (length (filter (fun l => skipped_line l = false) ["TP53	S1"; ""; "KRAS	M1"]), 0,
        Some (map ensure_nl (["#v2"] ++ "Hugo_Symbol	Tumor_Sample_Barcode" ::
                             ["TP53	S1"; ""; "KRAS	M1"])%list)).
Proof.
  apply (filter_mutation_rows_no_model_samples _ _ _ _ ["#v2"]
           "Hugo_Symbol	Tumor_Sample_Barcode" ["TP53	S1"; ""; "KRAS	M1"] 1);
    first [repeat constructor | vm_compute; reflexivity].
Defined.

Lemma filter_mutation_rows_no_sample_column_witness :
  filter_mutation_rows (fs_one "m.maf" ["Hugo_Symbol	HGVSp"; "TP53	p.R1H"]) (fun _ => true)
    "m.maf" ∅ None =
    match output_target None with
    | Some _ => Ok (length ["TP53	p.R1H"], 0, Some ([] ++ ["Hugo_Symbol	HGVSp"; "TP53	p.R1H"])%list)
    | None => Ok (0, 0, None)
    end.
Proof.
  apply (filter_mutation_rows_no_sample_column _ _ _ _ _ [] "Hugo_Symbol	HGVSp" ["TP53	p.R1H"]);
    first [repeat constructor | vm_compute; reflexivity].
Defined.

Lemma filter_mutation_rows_no_header_witness :
  filter_mutation_rows (fs_one "m.maf" ["#only comments"]) (fun _ => true) "m.maf" ∅
    (Some "out.maf") = Ok (0, 0, None).
Proof.
  apply (filter_mutation_rows_no_header _ _ _ _ _ ["#only comments"]);
    first [repeat constructor | vm_compute; reflexivity].
Defined.
